(** * Snowflake batch export: the workflow, its insert activity and the
      data-interval resolver of
      [posthog/temporal/workflows/snowflake_batch_export.py].

    The Python module is embedded shallowly.  Code that lives outside the
    module (the standard library's [json] and [datetime], Django's settings,
    the ClickHouse client, the Snowflake connector, Temporal's activity
    scheduler) is either a section variable or an explicit environment that
    says what each external call answers; everything the module itself does
    is a function of those. *)

From Stdlib Require Import ZArith Ascii DecimalString.
From stdpp Require Import base list gmap strings.

Open Scope Z_scope.

(** ** Exceptions and results *)

(** A raised Python exception (an instance of [Exception]): the name of
    its class and its message. *)
Record exn := Exn { exn_type : string; exn_msg : string }.

Definition TypeError (msg : string) : exn := Exn "TypeError" msg.
Definition ValueError (msg : string) : exn := Exn "ValueError" msg.
Definition IndexError (msg : string) : exn := Exn "IndexError" msg.
Definition OverflowError (msg : string) : exn := Exn "OverflowError" msg.
Definition ConnectionError (msg : string) : exn := Exn "ConnectionError" msg.

(** The outcome of a call that may raise. *)
Inductive result (A : Type) : Type :=
| Ok (a : A)
| Raise (e : exn).
Arguments Ok {A} a.
Arguments Raise {A} e.

Definition is_Ok {A} (r : result A) : bool :=
  match r with Ok _ => true | Raise _ => false end.

Definition rbind {A B} (r : result A) (k : A -> result B) : result B :=
  match r with
  | Ok a => k a
  | Raise e => Raise e
  end.

(** ** Timestamps ([datetime.datetime]) *)

(** A [datetime] is its wall-clock reading, counted in microseconds from
    [datetime.min] (0001-01-01T00:00:00), and its UTC offset in seconds when
    it is time-zone aware. *)
Record datetime := Datetime { dt_us : Z; dt_tz : option Z }.

Definition us_per_second : Z := 1000000.

(** [d - datetime.timedelta(seconds=s)]: the offset is kept, and a reading
    that would fall before [datetime.min] raises [OverflowError]. *)
Definition sub_seconds (d : datetime) (s : Z) : result datetime :=
  let us := dt_us d - s * us_per_second in
  if us <? 0 then Raise (OverflowError "date value out of range")
  else Ok (Datetime us (dt_tz d)).

(** *** A decoder and a printer for ISO-8601 text

    [datetime.fromisoformat] and [datetime.isoformat] belong to the standard
    library; the development is parametric in them.  The two functions below
    are concrete instances for naive timestamps of the form
    [YYYY-MM-DD], [YYYY-MM-DD?HH:MM], [YYYY-MM-DD?HH:MM:SS] and
    [YYYY-MM-DD?HH:MM:SS.ffffff], following CPython's calendar arithmetic
    ([_days_before_year], [_days_before_month], [_ord2ymd]). *)

Definition digit_of (c : ascii) : option Z :=
  let n := Z.of_nat (nat_of_ascii c) in
  if (48 <=? n) && (n <=? 57) then Some (n - 48) else None.

Fixpoint digits_value (acc : Z) (cs : list ascii) : option Z :=
  match cs with
  | [] => Some acc
  | c :: cs' =>
      match digit_of c with
      | Some d => digits_value (10 * acc + d) cs'
      | None => None
      end
  end.

(** A field of exactly [n] decimal digits. *)
Definition fixed_digits (n : nat) (cs : list ascii) : option Z :=
  if decide (length cs = n) then
    match cs with
    | [] => None
    | _ => digits_value 0 cs
    end
  else None.

Definition is_leap (y : Z) : bool :=
  (y mod 4 =? 0) && (negb (y mod 100 =? 0) || (y mod 400 =? 0)).

Definition days_in_month (y m : Z) : Z :=
  if m =? 2 then (if is_leap y then 29 else 28)
  else if (m =? 4) || (m =? 6) || (m =? 9) || (m =? 11) then 30
  else 31.

Definition days_before_year (y : Z) : Z :=
  let p := y - 1 in p * 365 + p / 4 - p / 100 + p / 400.

Fixpoint days_before_month_from (y : Z) (k : nat) (m : Z) : Z :=
  match k with
  | O => 0
  | S k' => days_before_month_from y k' (m - 1) + days_in_month y (m - 1)
  end.

Definition days_before_month (y m : Z) : Z :=
  days_before_month_from y (Z.to_nat (m - 1)) m.

(** Days from 0001-01-01 to the given date (0 for 0001-01-01). *)
Definition days_from_min (y m d : Z) : Z :=
  days_before_year y + days_before_month y m + (d - 1).

Definition us_per_day : Z := 86400 * us_per_second.

Definition valid_date (y m d : Z) : bool :=
  (1 <=? y) && (y <=? 9999) && (1 <=? m) && (m <=? 12)
  && (1 <=? d) && (d <=? days_in_month y m).

Definition valid_time (h mi s : Z) : bool :=
  (h <? 24) && (mi <? 60) && (s <? 60).

Definition is_char (c : ascii) (o : option ascii) : bool :=
  match o with
  | Some c' => bool_decide (c = c')
  | None => false
  end.

(** The date field [YYYY-MM-DD] as days from [datetime.min]. *)
Definition parse_date (cs : list ascii) : option Z :=
  if decide (length cs = 10%nat) then
    match fixed_digits 4 (take 4 cs),
          fixed_digits 2 (take 2 (drop 5 cs)),
          fixed_digits 2 (take 2 (drop 8 cs)) with
    | Some y, Some m, Some d =>
        if is_char "-" (cs !! 4%nat) && is_char "-" (cs !! 7%nat)
           && valid_date y m d
        then Some (days_from_min y m d) else None
    | _, _, _ => None
    end
  else None.

(** The fraction after the seconds: exactly three or six digits. *)
Definition parse_fraction (cs : list ascii) : option Z :=
  match cs with
  | [] => Some 0
  | c :: ds =>
      if bool_decide (c = "."%char) then
        match fixed_digits 3 ds, fixed_digits 6 ds with
        | Some ms, _ => Some (ms * 1000)
        | None, Some us => Some us
        | None, None => None
        end
      else None
  end.

(** The time field [HH], [HH:MM], [HH:MM:SS] or [HH:MM:SS.f] as
    microseconds into the day. *)
Definition parse_time (cs : list ascii) : option Z :=
  match fixed_digits 2 (take 2 cs) with
  | None => None
  | Some h =>
      let after_h := drop 2 cs in
      match after_h with
      | [] => if valid_time h 0 0 then Some (h * 3600 * us_per_second) else None
      | _ =>
          match fixed_digits 2 (take 2 (drop 1 after_h)) with
          | None => None
          | Some mi =>
              let after_m := drop 3 after_h in
              if negb (is_char ":" (after_h !! 0%nat)) then None else
              match after_m with
              | [] =>
                  if valid_time h mi 0
                  then Some ((h * 3600 + mi * 60) * us_per_second) else None
              | _ =>
                  match fixed_digits 2 (take 2 (drop 1 after_m)),
                        parse_fraction (drop 3 after_m) with
                  | Some s, Some f =>
                      if is_char ":" (after_m !! 0%nat) && valid_time h mi s
                      then Some ((h * 3600 + mi * 60 + s) * us_per_second + f)
                      else None
                  | _, _ => None
                  end
              end
          end
      end
  end.

Definition py_fromisoformat (s : string) : option datetime :=
  let cs := String.list_ascii_of_string s in
  match parse_date (take 10 cs) with
  | None => None
  | Some days =>
      match drop 10 cs with
      | [] => Some (Datetime (days * us_per_day) None)
      | _ :: tm =>
          match parse_time tm with
          | Some us => Some (Datetime (days * us_per_day + us) None)
          | None => None
          end
      end
  end.

(** [n] written with at least [width] decimal digits, zero padded. *)
Fixpoint pad_digits (width : nat) (n : Z) : string :=
  match width with
  | O => ""
  | S w => pad_digits w (n / 10) +:+
           String (ascii_of_nat (Z.to_nat (48 + n mod 10))) ""
  end.

(** The year of day number [n] (counted from 0 at 0001-01-01), with the day
    of that year, as CPython's [_ord2ymd] finds them. *)
Definition year_of_day (n : Z) : Z * Z :=
  let n400 := n / 146097 in
  let r400 := n mod 146097 in
  let n100 := r400 / 36524 in
  let r100 := r400 mod 36524 in
  let n4 := r100 / 1461 in
  let r4 := r100 mod 1461 in
  let n1 := r4 / 365 in
  let r1 := r4 mod 365 in
  let y := n400 * 400 + n100 * 100 + n4 * 4 + n1 + 1 in
  if (n1 =? 4) || (n100 =? 4) then (y - 1, 365) else (y, r1).

Fixpoint month_of_day (y : Z) (k : nat) (m : Z) (d : Z) : Z * Z :=
  match k with
  | O => (m, d)
  | S k' =>
      if d <? days_in_month y m then (m, d)
      else month_of_day y k' (m + 1) (d - days_in_month y m)
  end.

Definition py_isoformat (d : datetime) : string :=
  let days := dt_us d / us_per_day in
  let us := dt_us d mod us_per_day in
  let '(y, yd) := year_of_day days in
  let '(m, md) := month_of_day y 11 1 yd in
  let secs := us / us_per_second in
  let frac := us mod us_per_second in
  pad_digits 4 y +:+ "-" +:+ pad_digits 2 m +:+ "-" +:+ pad_digits 2 (md + 1)
  +:+ "T" +:+ pad_digits 2 (secs / 3600) +:+ ":"
  +:+ pad_digits 2 (secs / 60 mod 60) +:+ ":" +:+ pad_digits 2 (secs mod 60)
  +:+ (if frac =? 0 then "" else "." +:+ pad_digits 6 frac).


(** ** JSON values, rows and the [json] module *)

#[local] Set Warnings "-register-all".

(** The values a row of the source store carries and [json.loads] returns.
    A Python [dict] keeps its keys in insertion order, which is the order
    [json.dumps] writes them in: it is an association list with distinct
    keys. *)
Inductive json : Type :=
| JNull
| JBool (b : bool)
| JInt (n : Z)
| JStr (s : string)
| JList (l : list json)
| JDict (d : list (string * json)).

Definition row : Type := list (string * json).

(** [d.get(k)] *)
Fixpoint dict_get (d : row) (k : string) : option json :=
  match d with
  | [] => None
  | (k', v) :: d' => if decide (k = k') then Some v else dict_get d' k
  end.

(** [d[k] = v]: an existing key keeps its place, a new one goes last. *)
Fixpoint dict_set (d : row) (k : string) (v : json) : row :=
  match d with
  | [] => [(k, v)]
  | (k', v') :: d' =>
      if decide (k = k') then (k, v) :: d' else (k', v') :: dict_set d' k v
  end.

(** *** Concrete [json.dumps] and [json.loads]

    Instances of the two standard-library functions on ASCII text with
    integer numbers: [py_json_dumps] writes CPython's default separators
    [", "] and [": "]; [py_json_loads] is a recursive-descent reader that
    rejects what it cannot read, as [json.loads] raises [JSONDecodeError]. *)

Definition Z_to_string (n : Z) : string :=
  DecimalString.NilZero.string_of_int (Z.to_int n).

Definition dquote : ascii := "034"%char.

Fixpoint escape_string (s : string) : string :=
  match s with
  | EmptyString => ""
  | String c s' =>
      (if bool_decide (c = dquote) then String "\" (String dquote "")
       else if bool_decide (c = "\"%char) then "\\"
       else if bool_decide (c = "010"%char) then "\n"
       else if bool_decide (c = "009"%char) then "\t"
       else if bool_decide (c = "013"%char) then "\r"
       else String c "") +:+ escape_string s'
  end.

Definition quote_string (s : string) : string :=
  String dquote (escape_string s +:+ String dquote "").

Fixpoint join_with (sep : string) (parts : list string) : string :=
  match parts with
  | [] => ""
  | [p] => p
  | p :: ps => p +:+ sep +:+ join_with sep ps
  end.

Fixpoint py_json_dumps (v : json) : string :=
  match v with
  | JNull => "null"
  | JBool true => "true"
  | JBool false => "false"
  | JInt n => Z_to_string n
  | JStr s => quote_string s
  | JList l =>
      "[" +:+ join_with ", "
        ((fix items (l : list json) : list string :=
            match l with
            | [] => []
            | x :: l' => py_json_dumps x :: items l'
            end) l) +:+ "]"
  | JDict d =>
      "{" +:+ join_with ", "
        ((fix members (d : list (string * json)) : list string :=
            match d with
            | [] => []
            | (k, x) :: d' =>
                (quote_string k +:+ ": " +:+ py_json_dumps x) :: members d'
            end) d) +:+ "}"
  end.

Definition is_ws (c : ascii) : bool :=
  bool_decide (c = " "%char) || bool_decide (c = "010"%char)
  || bool_decide (c = "009"%char) || bool_decide (c = "013"%char).

Fixpoint skip_ws (cs : list ascii) : list ascii :=
  match cs with
  | c :: cs' => if is_ws c then skip_ws cs' else cs
  | [] => []
  end.

(** The characters of a string literal after its opening quote, up to the
    closing one. *)
Fixpoint read_string (cs : list ascii) : option (string * list ascii) :=
  match cs with
  | [] => None
  | c :: cs' =>
      if bool_decide (c = dquote) then Some ("", cs')
      else if bool_decide (c = "\"%char) then
        match cs' with
        | e :: cs'' =>
            let unescaped :=
              if bool_decide (e = "n"%char) then Some "010"%char
              else if bool_decide (e = "t"%char) then Some "009"%char
              else if bool_decide (e = "r"%char) then Some "013"%char
              else if bool_decide (e = dquote) then Some dquote
              else if bool_decide (e = "\"%char) then Some "\"%char
              else if bool_decide (e = "/"%char) then Some "/"%char
              else None in
            match unescaped, read_string cs'' with
            | Some u, Some (s, rest) => Some (String u s, rest)
            | _, _ => None
            end
        | [] => None
        end
      else
        match read_string cs' with
        | Some (s, rest) => Some (String c s, rest)
        | None => None
        end
  end.

Fixpoint span_digits (cs : list ascii) : list ascii * list ascii :=
  match cs with
  | c :: cs' =>
      match digit_of c with
      | Some _ => let '(ds, rest) := span_digits cs' in (c :: ds, rest)
      | None => ([], cs)
      end
  | [] => ([], [])
  end.

(** An integer literal: digits without a leading zero, no fraction. *)
Definition read_nat (cs : list ascii) : option (Z * list ascii) :=
  let '(ds, rest) := span_digits cs in
  match ds, digits_value 0 ds with
  | d :: _ :: _, Some n =>
      if bool_decide (d = "0"%char) then None else Some (n, rest)
  | [_], Some n => Some (n, rest)
  | _, _ => None
  end.

Definition starts_number_tail (cs : list ascii) : bool :=
  match cs with
  | c :: _ => bool_decide (c = "."%char) || bool_decide (c = "e"%char)
              || bool_decide (c = "E"%char)
  | [] => false
  end.

Fixpoint read_value (fuel : nat) (cs : list ascii) : option (json * list ascii) :=
  match fuel with
  | O => None
  | S fuel' =>
      match skip_ws cs with
      | "n"%char :: "u"%char :: "l"%char :: "l"%char :: rest => Some (JNull, rest)
      | "t"%char :: "r"%char :: "u"%char :: "e"%char :: rest => Some (JBool true, rest)
      | "f"%char :: "a"%char :: "l"%char :: "s"%char :: "e"%char :: rest =>
          Some (JBool false, rest)
      | "034"%char :: rest =>
          match read_string rest with
          | Some (s, rest') => Some (JStr s, rest')
          | None => None
          end
      | "["%char :: rest =>
          match skip_ws rest with
          | "]"%char :: rest' => Some (JList [], rest')
          | _ =>
              match read_items fuel' rest with
              | Some (l, rest') => Some (JList l, rest')
              | None => None
              end
          end
      | "{"%char :: rest =>
          match skip_ws rest with
          | "}"%char :: rest' => Some (JDict [], rest')
          | _ =>
              match read_members fuel' [] rest with
              | Some (d, rest') => Some (JDict d, rest')
              | None => None
              end
          end
      | "-"%char :: rest =>
          match read_nat rest with
          | Some (n, rest') =>
              if starts_number_tail rest' then None else Some (JInt (- n), rest')
          | None => None
          end
      | rest =>
          match read_nat rest with
          | Some (n, rest') =>
              if starts_number_tail rest' then None else Some (JInt n, rest')
          | None => None
          end
      end
  end
with read_items (fuel : nat) (cs : list ascii) : option (list json * list ascii) :=
  match fuel with
  | O => None
  | S fuel' =>
      match read_value fuel' cs with
      | Some (v, rest) =>
          match skip_ws rest with
          | ","%char :: rest' =>
              match read_items fuel' rest' with
              | Some (l, rest'') => Some (v :: l, rest'')
              | None => None
              end
          | "]"%char :: rest' => Some ([v], rest')
          | _ => None
          end
      | None => None
      end
  end
with read_members (fuel : nat) (acc : row) (cs : list ascii)
  : option (row * list ascii) :=
  match fuel with
  | O => None
  | S fuel' =>
      match skip_ws cs with
      | "034"%char :: rest =>
          match read_string rest with
          | Some (k, rest1) =>
              match skip_ws rest1 with
              | ":"%char :: rest2 =>
                  match read_value fuel' rest2 with
                  | Some (v, rest3) =>
                      match skip_ws rest3 with
                      | ","%char :: rest4 =>
                          read_members fuel' (dict_set acc k v) rest4
                      | "}"%char :: rest4 => Some (dict_set acc k v, rest4)
                      | _ => None
                      end
                  | None => None
                  end
              | _ => None
              end
          | None => None
          end
      | _ => None
      end
  end.

Definition py_json_loads (s : string) : option json :=
  let cs := String.list_ascii_of_string s in
  match read_value (2 * length cs + 2) cs with
  | Some (v, rest) =>
      match skip_ws rest with
      | [] => Some v
      | _ => None
      end
  | None => None
  end.



(** ** A state and exception monad

    Python statements act on a state and may raise: a computation maps a
    state to its outcome and the state it leaves, also when it raises. *)

Definition M (S A : Type) : Type := S -> result A * S.

Definition ret {S A} (a : A) : M S A := fun s => (Ok a, s).

Definition raise {S A} (e : exn) : M S A := fun s => (Raise e, s).

Definition bind {S A B} (m : M S A) (k : A -> M S B) : M S B :=
  fun s =>
    match m s with
    | (Ok a, s') => k a s'
    | (Raise e, s') => (Raise e, s')
    end.

Definition get {S} : M S S := fun s => (Ok s, s).

Definition modify {S} (f : S -> S) : M S unit := fun s => (Ok tt, f s).

Definition lift {S A} (r : result A) : M S A := fun s => (r, s).

(** [try: body finally: final].  The final block runs on every exit of
    the body; the outcome is the body's unless the final block raises. *)
Definition try_finally {S A} (body : M S A) (final : M S unit) : M S A :=
  fun s =>
    match body s with
    | (r, s') =>
        match final s' with
        | (Ok _, s'') => (r, s'')
        | (Raise e, s'') => (Raise e, s'')
        end
    end.

(** [try: body except Exception as e: handler e]. *)
Definition try_except {S A} (body : M S A) (handler : exn -> M S A) : M S A :=
  fun s =>
    match body s with
    | (Ok a, s') => (Ok a, s')
    | (Raise e, s') => handler e s'
    end.

Declare Scope py_scope.
Delimit Scope py_scope with py.
Notation "x <- c ;; k" := (bind c (fun x => k))
  (at level 100, c at next level, right associativity) : py_scope.
Notation "c ;; k" := (bind c (fun _ => k))
  (at level 100, right associativity) : py_scope.
Open Scope py_scope.

(** ** The world of the insert activity *)

(** The parameters of the activity (the dataclass [SnowflakeInsertInputs]). *)
Record SnowflakeInsertInputs := {
  team_id : Z;
  user : string;
  password : string;
  account : string;
  database : string;
  warehouse : string;
  schema : string;
  table_name : string;
  data_interval_start : string;
  data_interval_end : string
}.

(** The statements the activity sends through [cursor.execute].  A
    temporary file is named by its number. *)
Inductive statement : Type :=
| UseDatabase (db : string)
| UseSchema (sc : string)
| CreateTableIfNotExists (db sc tbl : string)
    (columns : list (string * string)) (comment : string)
| PutFile (file : nat) (tbl : string)
| CopyInto (tbl : string) (file_format_type : string)
    (match_by_column_name : string) (purge : bool).

(** What the activity does outside its own memory, in order. *)
Inductive event : Type :=
| ClientOpen
| IsAlive
| RowsCount
| Connect
| Execute (st : statement)
| ConnClose
| ClientClose.

(** A [tempfile.NamedTemporaryFile]: what reached the disk, what is still
    buffered, and whether it was closed (and so deleted). *)
Record tmpfile := TmpFile { f_disk : string; f_buf : string; f_closed : bool }.

Inductive conn_state : Type := NoConnection | ConnOpen | ConnClosed.

Record world := World {
  w_trace : list event;
  (** the contents of the files staged by a successful PUT, in order *)
  w_staged_files : list string;
  (** every temporary file made so far; file [i] is the [i]-th *)
  w_files : list tmpfile;
  (** the local variable [local_results_file] *)
  w_local_results_file : nat;
  (** the Snowflake connection [conn] *)
  w_conn : conn_state
}.

Definition initial_world : world := World [] [] [] 0 NoConnection.

(** A value the row iterator yields: [None] or a mapping. *)
Definition item : Type := option row.

(** What the collaborators of one run of the activity answer. *)
Record environment := Environment {
  (** [await client.is_alive()] *)
  env_is_alive : bool;
  (** [await get_rows_count(...)] *)
  env_rows_count : result Z;
  (** what [results_iterator.__anext__()] yields, call after call *)
  env_rows : list item;
  (** after them [StopAsyncIteration] ([None]) or another exception *)
  env_rows_end : option exn;
  (** [snowflake.connector.connect(...)] raising *)
  env_connect : option exn;
  (** the [n]-th [cursor.execute] of the run raising (from 0) *)
  env_execute : nat -> option exn
}.

Definition statement_of (ev : event) : option statement :=
  match ev with
  | Execute st => Some st
  | _ => None
  end.

(** The statements sent so far, as the test's Snowflake mock lists them in
    [queries]. *)
Definition queries (w : world) : list statement :=
  omap statement_of (w_trace w).

Definition emit (ev : event) : M world unit :=
  modify (fun w => World (w_trace w ++ [ev]) (w_staged_files w) (w_files w)
                         (w_local_results_file w) (w_conn w)).

Definition set_files (fs : list tmpfile) : M world unit :=
  modify (fun w => World (w_trace w) (w_staged_files w) fs
                         (w_local_results_file w) (w_conn w)).

Definition set_conn (c : conn_state) : M world unit :=
  modify (fun w => World (w_trace w) (w_staged_files w) (w_files w)
                         (w_local_results_file w) c).

Definition client_is_alive (env : environment) : M world bool :=
  emit IsAlive;; ret (env_is_alive env).

Definition get_rows_count (env : environment) : M world Z :=
  emit RowsCount;; lift (env_rows_count env).

Definition snowflake_connect (env : environment) : M world unit :=
  match env_connect env with
  | Some e => raise e
  | None => emit Connect;; set_conn ConnOpen
  end.

(** [conn.close()] *)
Definition conn_close : M world unit :=
  emit ConnClose;; set_conn ConnClosed.

(** [local_results_file = tempfile.NamedTemporaryFile()] *)
Definition named_temporary_file : M world unit :=
  modify (fun w => World (w_trace w) (w_staged_files w)
                         (w_files w ++ [TmpFile "" "" false])
                         (length (w_files w)) (w_conn w)).

Definition closed_file_error : exn := ValueError "I/O operation on closed file.".

(** The open file [local_results_file] names; using a closed file raises. *)
Definition local_file : M world (nat * tmpfile) :=
  w <- get;;
  match w_files w !! w_local_results_file w with
  | Some f =>
      if f_closed f then raise closed_file_error
      else ret (w_local_results_file w, f)
  | None => raise closed_file_error
  end.

(** [local_results_file.write(data)] *)
Definition file_write (data : string) : M world unit :=
  p <- local_file;;
  w <- get;;
  set_files (<[p.1 := TmpFile (f_disk p.2) (f_buf p.2 +:+ data) false]> (w_files w)).

(** [local_results_file.tell()] *)
Definition file_tell : M world Z :=
  p <- local_file;;
  ret (Z.of_nat (String.length (f_disk p.2) + String.length (f_buf p.2))).

(** [local_results_file.flush()] *)
Definition file_flush : M world unit :=
  p <- local_file;;
  w <- get;;
  set_files (<[p.1 := TmpFile (f_disk p.2 +:+ f_buf p.2) "" false]> (w_files w)).

(** [local_results_file.close()]: closing a closed file does nothing. *)
Definition file_close : M world unit :=
  w <- get;;
  let i := w_local_results_file w in
  match w_files w !! i with
  | Some f =>
      if f_closed f then ret tt
      else set_files (<[i := TmpFile (f_disk f +:+ f_buf f) "" true]> (w_files w))
  | None => ret tt
  end.

Definition executed (w : world) : nat := length (queries w).

(** What Snowflake does with a statement that does not fail: a PUT stages
    the file as it is on disk (a file that is gone cannot be staged);
    the other statements leave the activity's side untouched. *)
Definition run_statement (st : statement) : M world unit :=
  match st with
  | PutFile i _ =>
      w <- get;;
      match w_files w !! i with
      | Some f =>
          if f_closed f
          then raise (Exn "ProgrammingError" "file does not exist")
          else modify (fun w => World (w_trace w) (w_staged_files w ++ [f_disk f])
                                      (w_files w) (w_local_results_file w)
                                      (w_conn w))
      | None => raise (Exn "ProgrammingError" "file does not exist")
      end
  | _ => ret tt
  end.

(** [cursor.execute(st)] *)
Definition cursor_execute (env : environment) (st : statement) : M world unit :=
  w <- get;;
  emit (Execute st);;
  match env_execute env (executed w) with
  | Some e => raise e
  | None => run_statement st
  end.

(** The columns of the events table, as the [CREATE TABLE] statement lists
    them. *)
Definition events_columns : list (string * string) :=
  [("uuid", "STRING"); ("event", "STRING"); ("properties", "VARIANT");
   ("elements", "VARIANT"); ("people_set", "VARIANT");
   ("people_set_once", "VARIANT"); ("distinct_id", "STRING");
   ("team_id", "INTEGER"); ("ip", "STRING"); ("site_url", "STRING");
   ("timestamp", "TIMESTAMP")].

Definition create_table (inputs : SnowflakeInsertInputs) : statement :=
  CreateTableIfNotExists (database inputs) (schema inputs) (table_name inputs)
    events_columns "PostHog generated events table".

Definition put_file (inputs : SnowflakeInsertInputs) (file : nat) : statement :=
  PutFile file (table_name inputs).

Definition copy_into (inputs : SnowflakeInsertInputs) : statement :=
  CopyInto (table_name inputs) "JSON" "CASE_SENSITIVE" true.

Definition newline : string := String "010"%char "".

(** [not result] is false exactly for a mapping with a key. *)
Definition truthy (res : item) : option row :=
  match res with
  | Some (kv :: r) => Some (kv :: r)
  | Some [] => None
  | None => None
  end.

(** ** What the module takes from its runtime

    The standard library's ISO-8601 and JSON functions and the Django
    setting that bounds a staged file.  [None] stands for the function
    raising ([ValueError], respectively [JSONDecodeError]). *)
Class Runtime := {
  fromisoformat : string -> option datetime;
  isoformat : datetime -> string;
  json_loads : string -> option json;
  json_dumps : json -> string;
  BATCH_EXPORT_SNOWFLAKE_UPLOAD_CHUNK_SIZE_BYTES : Z
}.

(** The runtime built from the concrete instances above. *)
Definition py_runtime (chunk_size : Z) : Runtime := {|
  fromisoformat := py_fromisoformat;
  isoformat := py_isoformat;
  json_loads := py_json_loads;
  json_dumps := py_json_dumps;
  BATCH_EXPORT_SNOWFLAKE_UPLOAD_CHUNK_SIZE_BYTES := chunk_size
|}.

(** [dt.datetime.fromisoformat(s)] *)
Definition datetime_fromisoformat `{Runtime} (s : string) : result datetime :=
  match fromisoformat s with
  | Some d => Ok d
  | None => Raise (ValueError "Invalid isoformat string")
  end.

(** [json.loads(v)]: only text is decoded. *)
Definition json_loads_value `{Runtime} (v : json) : result json :=
  match v with
  | JStr s =>
      match json_loads s with
      | Some j => Ok j
      | None => Raise (Exn "JSONDecodeError" "Expecting value")
      end
  | _ => Raise (TypeError "the JSON object must be str, bytes or bytearray")
  end.

(** ** The insert activity *)

(** The row written for the fetched [result], here [res]:
    [{**result, "properties": json.loads(result.get("properties", "{}"))}]. *)
Definition staged_row `{Runtime} (res : row) : result row :=
  rbind (json_loads_value (default (JStr "{}") (dict_get res "properties")))
        (fun properties => Ok (dict_set res "properties" properties)).

(** The bytes written for a row: [json.dumps(row)] and a newline. *)
Definition staged_line `{Runtime} (r : row) : string :=
  json_dumps (JDict r) +:+ newline.

(** The body of the loop for a truthy [result], here [res]: the row is
    written, and the file is staged and replaced when it has grown past the
    chunk size. *)
Definition stage_result `{Runtime} (inputs : SnowflakeInsertInputs)
    (env : environment) (res : row) : M world unit :=
  r <- lift (staged_row res);;
  file_write (json_dumps (JDict r));;
  file_write newline;;
  pos <- file_tell;;
  if negb (pos =? 0) && (pos >? BATCH_EXPORT_SNOWFLAKE_UPLOAD_CHUNK_SIZE_BYTES)
  then
    file_flush;;
    w <- get;;
    cursor_execute env (put_file inputs (w_local_results_file w));;
    file_close;;
    named_temporary_file
  else ret tt.

(** The [while True] loop of the activity over what the iterator still
    has to yield: it ends when the iterator is exhausted or raises, and at
    the first result that is not truthy. *)
Fixpoint staging_loop `{Runtime} (inputs : SnowflakeInsertInputs)
    (env : environment) (rows : list item) : M world unit :=
  match rows with
  | [] =>
      match env_rows_end env with
      | None => ret tt
      | Some e => raise e
      end
  | res :: rest =>
      match truthy res with
      | None => ret tt
      | Some res =>
          stage_result inputs env res;;
          staging_loop inputs env rest
      end
  end.

(** The statements after the loop, still under the inner [try]. *)
Definition stage_rest_and_load (inputs : SnowflakeInsertInputs)
    (env : environment) : M world unit :=
  file_flush;;
  w <- get;;
  cursor_execute env (put_file inputs (w_local_results_file w));;
  file_close;;
  cursor_execute env (copy_into inputs).

(** From the temporary file to the inner [finally]: the file, the loop,
    the last PUT and the COPY, with the file closed on every exit. *)
Definition stage_and_load `{Runtime} (inputs : SnowflakeInsertInputs)
    (env : environment) : M world unit :=
  named_temporary_file;;
  try_finally
    (staging_loop inputs env (env_rows env);; stage_rest_and_load inputs env)
    file_close.

(** The statements that prepare the destination, in the order sent. *)
Definition prelude (inputs : SnowflakeInsertInputs) : list statement :=
  [UseDatabase (database inputs); UseSchema (schema inputs); create_table inputs].

(** The body of [async with get_client() as client]. *)
Definition export_rows `{Runtime} (inputs : SnowflakeInsertInputs)
    (env : environment) : M world unit :=
  alive <- client_is_alive env;;
  if negb alive
  then raise (ConnectionError "Cannot establish connection to ClickHouse")
  else
    count <- get_rows_count env;;
    if count =? 0 then ret tt
    else
      snowflake_connect env;;
      try_finally
        (cursor_execute env (UseDatabase (database inputs));;
         cursor_execute env (UseSchema (schema inputs));;
         cursor_execute env (create_table inputs);;
         stage_and_load inputs env)
        conn_close.

Definition insert_into_snowflake_activity `{Runtime}
    (inputs : SnowflakeInsertInputs) (env : environment) : M world unit :=
  emit ClientOpen;;
  try_finally (export_rows inputs env) (emit ClientClose).

(** One run of the activity from a fresh worker. *)
Definition run_activity `{Runtime} (inputs : SnowflakeInsertInputs)
    (env : environment) : result unit * world :=
  insert_into_snowflake_activity inputs env initial_world.

(** *** The source store *)

(** The condition of [SELECT_QUERY_TEMPLATE] on a stored row:
    [timestamp >= start AND timestamp < end AND team_id = team]. *)
Definition selected `{Runtime} (team : Z) (interval_start interval_end : datetime)
    (r : row) : bool :=
  match dict_get r "timestamp", dict_get r "team_id" with
  | Some (JStr ts), Some (JInt t) =>
      match fromisoformat ts with
      | Some d =>
          (dt_us interval_start <=? dt_us d) && (dt_us d <? dt_us interval_end)
          && (t =? team)
      | None => false
      end
  | _, _ => false
  end.

(** Modelled from the spec: [get_results_iterator] and [get_rows_count] of
    [posthog.temporal.workflows.batch_exports] are not part of the sources.
    Section 4.2 of the specification has the first return the stored rows
    "filtered to timestamp in [start, end) and team_id = given" in the
    store's scan order, and the second count them; the bounds are the ISO
    texts the activity passes. *)
Definition select_rows `{Runtime} (store : list row) (team : Z)
    (interval_start interval_end : string) : result (list row) :=
  match fromisoformat interval_start, fromisoformat interval_end with
  | Some s, Some e => Ok (filter (fun r => selected team s e r = true) store)
  | _, _ => Raise (Exn "ServerException" "Cannot parse DateTime")
  end.

(** Modelled from the spec: the environment of a run whose source store
    holds [store] and answers, whose remote calls all succeed. *)
Definition source_environment `{Runtime} (store : list row)
    (inputs : SnowflakeInsertInputs) : environment :=
  let rows := select_rows store (team_id inputs) (data_interval_start inputs)
                          (data_interval_end inputs) in
  {| env_is_alive := true;
     env_rows_count := rbind rows (fun l => Ok (Z.of_nat (length l)));
     env_rows := match rows with Ok l => map Some l | Raise _ => [] end;
     env_rows_end := match rows with Ok _ => None | Raise e => Some e end;
     env_connect := None;
     env_execute := fun _ => None |}.

(** ** The data interval of a run *)

(** The inputs of the workflow ([SnowflakeBatchExportInputs], declared in
    [posthog.batch_exports.service]); [data_interval_end] may be [None]. *)
Record SnowflakeBatchExportInputs := {
  export_team_id : Z;
  export_batch_export_id : string;
  export_user : string;
  export_password : string;
  export_account : string;
  export_database : string;
  export_warehouse : string;
  export_schema : string;
  export_table_name : string;
  export_data_interval_end : option string
}.

(** A value of a Temporal search attribute. *)
Inductive sa_value : Type :=
| SAStr (s : string)
| SADatetime (d : datetime)
| SAInt (n : Z)
| SABool (b : bool).

(** [workflow.info().search_attributes]: a mapping from names to lists of
    values. *)
Definition search_attributes : Type := gmap string (list sa_value).

Definition missing_search_attribute_message : string :=
  "Expected 'TemporalScheduledStartTime' of type 'list[str]' or 'list[datetime], found 'NoneType'."
  +:+ "This should be set by the Temporal Schedule unless triggering workflow manually."
  +:+ "In the latter case, ensure 'S3BatchExportInputs.data_interval_end' is set.".

Definition wrong_search_attribute_message : string :=
  "Expected search attribute to be of type 'str' or 'datetime'".

(** The end of the interval: the [if not data_interval_end_str] statement
    of [get_data_interval_from_workflow_inputs].  [None] and the empty
    text are both false in Python. *)
Definition resolve_data_interval_end `{Runtime}
    (inputs : SnowflakeBatchExportInputs) (attrs : search_attributes)
  : result datetime :=
  match export_data_interval_end inputs with
  | Some (String c s) => datetime_fromisoformat (String c s)
  | Some EmptyString | None =>
      match attrs !! "TemporalScheduledStartTime" with
      | None => Raise (TypeError missing_search_attribute_message)
      | Some [] => Raise (IndexError "list index out of range")
      | Some (SAStr s :: _) => datetime_fromisoformat s
      | Some (SADatetime d :: _) => Ok d
      | Some (_ :: _) => Raise (TypeError wrong_search_attribute_message)
      end
  end.

Definition get_data_interval_from_workflow_inputs `{Runtime}
    (inputs : SnowflakeBatchExportInputs) (attrs : search_attributes)
  : result (datetime * datetime) :=
  rbind (resolve_data_interval_end inputs attrs) (fun data_interval_end =>
  rbind (sub_seconds data_interval_end 3600) (fun data_interval_start =>
  Ok (data_interval_start, data_interval_end))).

(** ** The workflow *)

(** [RetryPolicy(maximum_attempts=..., non_retryable_error_types=[...])] *)
Record RetryPolicy := {
  maximum_attempts : nat;
  non_retryable_error_types : list string
}.

(** Temporal's retries: attempt [k] is made; a failure is final when its
    type is listed as non-retryable or no attempt is left.  The result comes
    with what each attempt left behind. *)
Fixpoint attempts {A O} (non_retryable : list string)
    (attempt : nat -> result A * O) (k retries_left : nat)
  : result A * list O :=
  match attempt k with
  | (Ok a, o) => (Ok a, [o])
  | (Raise e, o) =>
      match retries_left with
      | O => (Raise e, [o])
      | S n =>
          if bool_decide (exn_type e ∈ non_retryable) then (Raise e, [o])
          else
            let '(r, os) := attempts non_retryable attempt (S k) n in
            (r, o :: os)
      end
  end.

(** [await workflow.execute_activity(activity, ..., retry_policy=policy)] *)
Definition execute_activity {A O} (policy : RetryPolicy)
    (attempt : nat -> result A * O) : result A * list O :=
  attempts (non_retryable_error_types policy) attempt 0
           (pred (maximum_attempts policy)).

Record CreateBatchExportRunInputs := {
  create_team_id : Z;
  create_batch_export_id : string;
  create_data_interval_start : string;
  create_data_interval_end : string
}.

(** The field [id] is named [run_id] here. *)
Record UpdateBatchExportRunStatusInputs := {
  run_id : string;
  status : string
}.

(** The activities the workflow scheduled, with the number of attempts
    (for the insert activity, the world each attempt left). *)
Inductive activity_call : Type :=
| CreateExportRun (inputs : CreateBatchExportRunInputs) (tries : nat)
| InsertIntoSnowflake (inputs : SnowflakeInsertInputs) (runs : list world)
| UpdateExportRunStatus (inputs : UpdateBatchExportRunStatusInputs) (tries : nat).

(** What the collaborators of one run of the workflow answer, attempt by
    attempt. *)
Record workflow_environment := {
  wf_search_attributes : search_attributes;
  wf_create_export_run : nat -> result string;
  wf_insert : nat -> environment;
  wf_update_export_run_status : nat -> result unit
}.

Record workflow_state := WorkflowState {
  ws_calls : list activity_call;
  (** the local variable [update_inputs], once bound *)
  ws_update_inputs : option UpdateBatchExportRunStatusInputs
}.

Definition initial_workflow_state : workflow_state := WorkflowState [] None.

Definition record_call (c : activity_call) : M workflow_state unit :=
  modify (fun s => WorkflowState (ws_calls s ++ [c]) (ws_update_inputs s)).

Definition set_update_inputs (u : UpdateBatchExportRunStatusInputs)
  : M workflow_state unit :=
  modify (fun s => WorkflowState (ws_calls s) (Some u)).

Definition get_update_inputs : M workflow_state UpdateBatchExportRunStatusInputs :=
  s <- get;;
  match ws_update_inputs s with
  | Some u => ret u
  | None => raise (Exn "UnboundLocalError" "update_inputs")
  end.

Definition create_export_run_policy : RetryPolicy :=
  {| maximum_attempts := 3;
     non_retryable_error_types := ["NotNullViolation"; "IntegrityError"] |}.

Definition insert_into_snowflake_policy : RetryPolicy :=
  {| maximum_attempts := 3;
     non_retryable_error_types := ["ConnectionError"; "ValueError"] |}.

Definition update_export_run_status_policy : RetryPolicy :=
  {| maximum_attempts := 3; non_retryable_error_types := [] |}.

Definition execute_create_export_run (env : workflow_environment)
    (inputs : CreateBatchExportRunInputs) : M workflow_state string :=
  let '(r, os) := execute_activity create_export_run_policy
                    (fun k => (wf_create_export_run env k, tt)) in
  record_call (CreateExportRun inputs (length os));; lift r.

Definition execute_insert_into_snowflake `{Runtime} (env : workflow_environment)
    (inputs : SnowflakeInsertInputs) : M workflow_state unit :=
  let '(r, os) := execute_activity insert_into_snowflake_policy
                    (fun k => run_activity inputs (wf_insert env k)) in
  record_call (InsertIntoSnowflake inputs os);; lift r.

Definition execute_update_export_run_status (env : workflow_environment)
    (inputs : UpdateBatchExportRunStatusInputs) : M workflow_state unit :=
  let '(r, os) := execute_activity update_export_run_status_policy
                    (fun k => (wf_update_export_run_status env k, tt)) in
  record_call (UpdateExportRunStatus inputs (length os));; lift r.

(** The inputs [run] builds for [create_export_run]. *)
Definition create_inputs_of `{Runtime} (inputs : SnowflakeBatchExportInputs)
    (interval : datetime * datetime) : CreateBatchExportRunInputs :=
  {| create_team_id := export_team_id inputs;
     create_batch_export_id := export_batch_export_id inputs;
     create_data_interval_start := isoformat interval.1;
     create_data_interval_end := isoformat interval.2 |}.

(** The inputs [run] builds for the insert activity. *)
Definition insert_inputs_of `{Runtime} (inputs : SnowflakeBatchExportInputs)
    (interval : datetime * datetime) : SnowflakeInsertInputs :=
  {| team_id := export_team_id inputs;
     user := export_user inputs;
     password := export_password inputs;
     account := export_account inputs;
     database := export_database inputs;
     warehouse := export_warehouse inputs;
     schema := export_schema inputs;
     table_name := export_table_name inputs;
     data_interval_start := isoformat interval.1;
     data_interval_end := isoformat interval.2 |}.

(** [SnowflakeBatchExportWorkflow.run] *)
Definition run `{Runtime} (inputs : SnowflakeBatchExportInputs)
    (env : workflow_environment) : M workflow_state unit :=
  interval <- lift (get_data_interval_from_workflow_inputs inputs
                      (wf_search_attributes env));;
  let create_export_run_inputs := create_inputs_of inputs interval in
  new_run_id <- execute_create_export_run env create_export_run_inputs;;
  set_update_inputs {| run_id := new_run_id; status := "Completed" |};;
  let insert_inputs := insert_inputs_of inputs interval in
  try_finally
    (try_except
       (execute_insert_into_snowflake env insert_inputs)
       (fun e =>
          update_inputs <- get_update_inputs;;
          set_update_inputs {| run_id := run_id update_inputs; status := "Failed" |};;
          raise e))
    (update_inputs <- get_update_inputs;;
     execute_update_export_run_status env update_inputs).

Definition run_workflow `{Runtime} (inputs : SnowflakeBatchExportInputs)
    (env : workflow_environment) : result unit * workflow_state :=
  run inputs env initial_workflow_state.

(** The status updates among the scheduled activities. *)
Definition status_updates (s : workflow_state)
  : list UpdateBatchExportRunStatusInputs :=
  omap (fun c => match c with
                 | UpdateExportRunStatus u _ => Some u
                 | _ => None
                 end) (ws_calls s).

(** ** Notions the properties are stated with *)

(** A world whose current temporary file is the last one made and open,
    with [d] on disk and [b] buffered. *)
Definition open_world (tr : list event) (st : list string) (fs : list tmpfile)
    (d b : string) (c : conn_state) : world :=
  World tr st (fs ++ [TmpFile d b false]) (length fs) c.

Definition closed_files (fs : list tmpfile) : Prop :=
  Forall (fun f => f_closed f = true) fs.

(** The bytes of a file that holds the given lines. *)
Definition file_content (lines : list string) : string :=
  foldr String.append "" lines.

(** The lines of the files the loop seals when it starts with [cur] in
    the current file and writes [lines], and the lines it leaves in the
    current file. *)
Fixpoint chunk_lines (T : Z) (cur : list string) (lines : list string)
  : list (list string) * list string :=
  match lines with
  | [] => ([], cur)
  | l :: ls =>
      let cur' := cur ++ [l] in
      let pos := Z.of_nat (String.length (file_content cur')) in
      if negb (pos =? 0) && (pos >? T)
      then let '(sealed, rest) := chunk_lines T [] ls in (cur' :: sealed, rest)
      else chunk_lines T cur' ls
  end.

(** The environment whose iterator stops after [rows]. *)
Definition stop_after (env : environment) (rows : list item) : environment :=
  {| env_is_alive := env_is_alive env;
     env_rows_count := env_rows_count env;
     env_rows := rows;
     env_rows_end := None;
     env_connect := env_connect env;
     env_execute := env_execute env |}.

(** Every remote call of the run succeeds. *)
Definition all_succeed (env : environment) : Prop :=
  env_connect env = None /\ forall n, env_execute env n = None.

Definition is_put (st : statement) : bool :=
  match st with
  | PutFile _ _ => true
  | _ => false
  end.

(** The PUT statements among [qs]. *)
Definition staging_calls (qs : list statement) : list statement :=
  filter (fun st => is_put st = true) qs.

(** The iterator's value [it] is a truthy row whose line in the staged
    file is [l]: the row with its properties decoded, as JSON, and a
    newline. *)
Definition writes_line `{Runtime} (it : item) (l : string) : Prop :=
  exists res r,
    truthy it = Some res /\ staged_row res = Ok r /\ l = staged_line r.

(** A temporary file that was staged with the given lines and closed. *)
Definition sealed_file (lines : list string) : tmpfile :=
  TmpFile (file_content lines) "" true.

(** The world a run leaves that connected, staged the files [groups] and
    loaded them. *)
Definition loaded_world (inputs : SnowflakeInsertInputs)
    (groups : list (list string)) : world :=
  World ([ClientOpen; IsAlive; RowsCount; Connect]
         ++ map Execute (prelude inputs
                         ++ map (put_file inputs) (seq 0 (length groups))
                         ++ [copy_into inputs])
         ++ [ConnClose; ClientClose])
        (map file_content groups) (map sealed_file groups)
        (pred (length groups)) ConnClosed.

(** The world a run leaves that found the source unreachable. *)
Definition unreachable_world : world :=
  World [ClientOpen; IsAlive; ClientClose] [] [] 0 NoConnection.

(** The world a run leaves that counted no row. *)
Definition empty_exit_world : world :=
  World [ClientOpen; IsAlive; RowsCount; ClientClose] [] [] 0 NoConnection.

(** [l] is the line of the stored row [r]: the row with the text of its
    properties replaced by the value it decodes to, as one JSON object and a
    newline. *)
Definition line_of_row `{Runtime} (r : row) (l : string) : Prop :=
  exists properties,
    json_loads_value (default (JStr "{}") (dict_get r "properties"))
    = Ok properties
    /\ l = json_dumps (JDict (dict_set r "properties" properties)) +:+ newline.

(** The outcome of each of the three activities of a workflow run, retries
    included. *)
Definition create_outcome (env : workflow_environment) : result string :=
  (execute_activity create_export_run_policy
     (fun k => (wf_create_export_run env k, tt))).1.

Definition insert_outcome `{Runtime} (env : workflow_environment)
    (inputs : SnowflakeInsertInputs) : result unit :=
  (execute_activity insert_into_snowflake_policy
     (fun k => run_activity inputs (wf_insert env k))).1.

Definition update_outcome (env : workflow_environment) : result unit :=
  (execute_activity update_export_run_status_policy
     (fun k => (wf_update_export_run_status env k, tt))).1.

(** ** The scenario of the workflow test

    One team exports the hour before 2023-04-20 14:40 with a chunk size of
    one byte; the store holds two events of the team in the hour, one
    before it, one after it, and one of another team in the hour. *)

Definition test_runtime : Runtime := py_runtime 1.

(** [json.dumps({"$browser": "Chrome", "$os": "Mac OS X"})] *)
Definition test_properties : string :=
  "{" +:+ quote_string "$browser" +:+ ": " +:+ quote_string "Chrome" +:+ ", "
  +:+ quote_string "$os" +:+ ": " +:+ quote_string "Mac OS X" +:+ "}".

Definition test_event (uuid timestamp : string) (team : Z) : row :=
  [("uuid", JStr uuid); ("event", JStr "test"); ("timestamp", JStr timestamp);
   ("person_id", JStr "person"); ("team_id", JInt team);
   ("properties", JStr test_properties)].

Definition test_first : row := test_event "e0" "2023-04-20 14:30:00.000000" 1.
Definition test_second : row := test_event "e1" "2023-04-20 14:30:00.000001" 1.

Definition test_store : list row :=
  [test_first;
   test_event "before" "2023-04-20 13:30:00" 1;
   test_second;
   test_event "after" "2023-04-20 15:30:00" 1;
   test_event "other" "2023-04-20 14:30:00" 2].

Definition test_insert_inputs : SnowflakeInsertInputs :=
  {| team_id := 1; user := "hazzadous"; password := "password";
     account := "account"; database := "PostHog"; warehouse := "COMPUTE_WH";
     schema := "test"; table_name := "events";
     data_interval_start := "2023-04-20T13:40:00";
     data_interval_end := "2023-04-20T14:40:00" |}.

Definition test_environment : environment :=
  source_environment (H := test_runtime) test_store test_insert_inputs.

(** The line written for a row of the scenario. *)
Definition test_line (r : row) : string :=
  staged_line (H := test_runtime)
    (dict_set r "properties"
       (JDict [("$browser", JStr "Chrome"); ("$os", JStr "Mac OS X")])).

(** The same source when its liveness check fails. *)
Definition unreachable_environment : environment :=
  {| env_is_alive := false;
     env_rows_count := env_rows_count test_environment;
     env_rows := env_rows test_environment;
     env_rows_end := None;
     env_connect := None;
     env_execute := fun _ => None |}.

(** A source that counts two rows and yields an empty mapping between
    them. *)
Definition interrupted_environment : environment :=
  {| env_is_alive := true;
     env_rows_count := Ok 2;
     env_rows := [Some test_first; Some []; Some test_second];
     env_rows_end := None;
     env_connect := None;
     env_execute := fun _ => None |}.

Definition test_export_inputs (data_interval_end : option string)
  : SnowflakeBatchExportInputs :=
  {| export_team_id := 1; export_batch_export_id := "batch-export";
     export_user := "hazzadous"; export_password := "password";
     export_account := "account"; export_database := "PostHog";
     export_warehouse := "COMPUTE_WH"; export_schema := "test";
     export_table_name := "events";
     export_data_interval_end := data_interval_end |}.

(** The workflow's collaborators in the test: the run record is created,
    the source is the store above and the status update succeeds. *)
Definition test_workflow_environment (store : list row) : workflow_environment :=
  {| wf_search_attributes := ∅;
     wf_create_export_run := fun _ => Ok "run-1";
     wf_insert := fun _ =>
       source_environment (H := test_runtime) store test_insert_inputs;
     wf_update_export_run_status := fun _ => Ok tt |}.

(** The same, when creating the run record violates a constraint. *)
Definition failing_creation_environment : workflow_environment :=
  {| wf_search_attributes := ∅;
     wf_create_export_run := fun _ => Raise (Exn "IntegrityError" "duplicate key");
     wf_insert := fun _ =>
       source_environment (H := test_runtime) test_store test_insert_inputs;
     wf_update_export_run_status := fun _ => Ok tt |}.

(** A schedule whose start time is the empty text. *)
Definition empty_schedule_signal : search_attributes :=
  {["TemporalScheduledStartTime" := [SAStr ""]]}.

(** The test's source when Snowflake refuses the second PUT (the fifth
    statement of the run). *)
Definition failing_put_environment : environment :=
  {| env_is_alive := true;
     env_rows_count := Ok 2;
     env_rows := [Some test_first; Some test_second];
     env_rows_end := None;
     env_connect := None;
     env_execute := fun n =>
       if decide (n = 4%nat)
       then Some (Exn "ProgrammingError" "stage is not available")
       else None |}.

(** ** The helpers of the workflow test

    [contains_queries_in_order] and the decoding of the staged data, from
    [test_snowflake_batch_export_workflow.py]. *)

(** [contains_queries_in_order(queries, *queries_to_find)].  The deque of
    the patterns still to find is a list and [popleft] takes its tail;
    [re_match p q] tells whether [re.match(p, q)] finds a match. *)
Fixpoint contains_queries_in_order (re_match : string -> string -> bool)
    (queries queries_to_find : list string) : bool :=
  match queries with
  | [] => bool_decide (queries_to_find = [])
  | query :: queries' =>
      match queries_to_find with
      | [] => true
      | p :: ps =>
          if re_match p query
          then contains_queries_in_order re_match queries' ps
          else contains_queries_in_order re_match queries' queries_to_find
      end
  end.

(** [s.split(c)] for a one-character separator: the pieces between the
    separators, one more than there are separators. *)
Fixpoint split_on (c : ascii) (s : string) : list string :=
  match s with
  | EmptyString => [""]
  | String a s' =>
      if bool_decide (a = c) then "" :: split_on c s'
      else
        match split_on c s' with
        | piece :: pieces => String a piece :: pieces
        | [] => [String a ""]
        end
  end.

(** The character [c] does not occur in [s]. *)
Fixpoint free_of (c : ascii) (s : string) : Prop :=
  match s with
  | EmptyString => True
  | String a s' => a <> c /\ free_of c s'
  end.

(** The lines the test reads back:
    [[line for line in "\n".join(staged_files).split("\n") if line]]. *)
Definition staged_data_lines (staged_files : list string) : list string :=
  filter (fun line => line <> "")
         (split_on "010" (join_with newline staged_files)).

(** [[json.loads(line) for line in ... if line]]: [None] when a line is
    not JSON. *)
Definition read_staged_data `{Runtime} (staged_files : list string)
  : option (list json) :=
  mapM json_loads (staged_data_lines staged_files).

(** The file that holds the given JSON texts, one per line. *)
Definition file_of_texts (texts : list string) : string :=
  file_content (map (fun t => t +:+ newline) texts).

(** The number of bytes of the file that holds [lines]. *)
Definition content_size (lines : list string) : Z :=
  Z.of_nat (String.length (file_content lines)).

(** A file the loop sealed: it passed the chunk size with its last line. *)
Definition just_exceeds (T : Z) (g : list string) : Prop :=
  exists g0 l,
    g = g0 ++ [l]
    /\ 0 < content_size g
    /\ T < content_size g
    /\ (content_size g0 = 0 \/ content_size g0 <= T).

(** ** Further scenarios *)

(** [re.match(p, q)] for a pattern without special characters: [q] starts
    with [p]. *)
Definition literal_match (p q : string) : bool := String.prefix p q.

(** A chunk size of one MiB, which the lines of the scenario do not
    reach. *)
Definition roomy_runtime : Runtime := py_runtime 1048576.

(** The test's source when Snowflake refuses the connection. *)
Definition refused_connection_environment : environment :=
  {| env_is_alive := true;
     env_rows_count := Ok 2;
     env_rows := [Some test_first; Some test_second];
     env_rows_end := None;
     env_connect := Some (Exn "DatabaseError" "incorrect username or password");
     env_execute := fun _ => None |}.

(** An event whose properties are not JSON text. *)
Definition test_undecodable : row :=
  dict_set test_second "properties" (JStr "{").

(** A source that yields such an event between the two of the test. *)
Definition undecodable_environment : environment :=
  {| env_is_alive := true;
     env_rows_count := Ok 3;
     env_rows := [Some test_first; Some test_undecodable; Some test_second];
     env_rows_end := None;
     env_connect := None;
     env_execute := fun _ => None |}.


(** The workflow's collaborators when the status cannot be updated. *)
Definition failing_update_environment : workflow_environment :=
  {| wf_search_attributes := ∅;
     wf_create_export_run := fun _ => Ok "run-1";
     wf_insert := fun _ =>
       source_environment (H := test_runtime) test_store test_insert_inputs;
     wf_update_export_run_status := fun _ =>
       Raise (Exn "DoesNotExist" "BatchExportRun matching query does not exist") |}.

(** The JSON text of the line written for a row of the scenario. *)
Definition test_text (r : row) : string :=
  json_dumps (Runtime := test_runtime)
    (JDict (dict_set r "properties"
              (JDict [("$browser", JStr "Chrome"); ("$os", JStr "Mac OS X")]))).

(** * Properties *)

(** ** The data interval *)

Section Interval.
Context `{Runtime}.

Lemma datetime_fromisoformat_Ok (s : string) (d : datetime) :
  fromisoformat s = Some d -> datetime_fromisoformat s = Ok d.
Proof. intros Hs. unfold datetime_fromisoformat. by rewrite Hs. Qed.

Lemma sub_seconds_Ok (d : datetime) (s : Z) :
  0 <= dt_us d - s * us_per_second ->
  sub_seconds d s = Ok (Datetime (dt_us d - s * us_per_second) (dt_tz d)).
Proof.
  intros Hrange. unfold sub_seconds.
  destruct (Z.ltb_spec (dt_us d - s * us_per_second) 0); [lia | done].
Qed.

(** The resolver fails exactly when the end does not resolve or the start
    is not representable; otherwise it returns the end it resolved. *)
Lemma interval_end_is_resolved (inputs : SnowflakeBatchExportInputs)
    (attrs : search_attributes) (s e : datetime) :
  get_data_interval_from_workflow_inputs inputs attrs = Ok (s, e) ->
  resolve_data_interval_end inputs attrs = Ok e.
Proof.
  unfold get_data_interval_from_workflow_inputs.
  destruct (resolve_data_interval_end inputs attrs) as [e'|]; [|done].
  simpl. destruct (sub_seconds e' 3600); [|done]. simpl. congruence.
Qed.

(** The three ways an interval end resolves. *)
Lemma resolve_data_interval_end_Ok (inputs : SnowflakeBatchExportInputs)
    (attrs : search_attributes) (e : datetime) :
  resolve_data_interval_end inputs attrs = Ok e ->
  (exists s, export_data_interval_end inputs = Some s /\ s <> ""
             /\ fromisoformat s = Some e)
  \/ (exists s vs, attrs !! "TemporalScheduledStartTime" = Some (SAStr s :: vs)
                   /\ fromisoformat s = Some e)
  \/ (exists vs, attrs !! "TemporalScheduledStartTime" = Some (SADatetime e :: vs)).
Proof.
  unfold resolve_data_interval_end, datetime_fromisoformat.
  destruct (export_data_interval_end inputs) as [[|c s]|].
  2:{ destruct (fromisoformat (String c s)) as [d|] eqn:Hd; [|done].
      intros [= <-]. left. by exists (String c s). }
  all: destruct (attrs !! "TemporalScheduledStartTime") as [[|[s|d|n|b] vs]|];
    try done.
  all: first
    [ destruct (fromisoformat s) as [d'|] eqn:Hd; [|done];
      intros [= <-]; right; left; by exists s, vs
    | intros [= <-]; right; right; by exists vs ].
Qed.

(** C7: an interval end [e] that resolves (from the explicit ISO-8601 text
    or from the schedule signal) and lies at least one hour after
    [datetime.min] gives the pair (e - 1 hour, e): the start is 3600 seconds
    before the end, with the same UTC offset.  The pair is a function of the
    explicit end and the schedule signal alone. *)
Theorem interval_is_hour_before_end (inputs : SnowflakeBatchExportInputs)
    (attrs : search_attributes) (e : datetime) :
  resolve_data_interval_end inputs attrs = Ok e ->
  3600 * us_per_second <= dt_us e ->
  get_data_interval_from_workflow_inputs inputs attrs
  = Ok (Datetime (dt_us e - 3600 * us_per_second) (dt_tz e), e)
  /\ forall inputs' attrs',
       export_data_interval_end inputs' = export_data_interval_end inputs ->
       attrs' !! "TemporalScheduledStartTime" = attrs !! "TemporalScheduledStartTime" ->
       get_data_interval_from_workflow_inputs inputs' attrs'
       = get_data_interval_from_workflow_inputs inputs attrs.
Proof.
  intros Hend Hrange. split.
  - unfold get_data_interval_from_workflow_inputs. rewrite Hend. simpl.
    rewrite sub_seconds_Ok by lia. done.
  - intros inputs' attrs' Hi Ha.
    unfold get_data_interval_from_workflow_inputs, resolve_data_interval_end.
    by rewrite Hi, Ha.
Qed.

(** C6 (amended): without an explicit interval end the resolver raises
    [TypeError] when the schedule signal is missing and when its first value
    is neither text nor a timestamp; an empty text passes the type test and
    is refused by the ISO-8601 decoder with [ValueError]. *)
Theorem missing_interval_end_raises (inputs : SnowflakeBatchExportInputs)
    (attrs : search_attributes) :
  export_data_interval_end inputs = None
  \/ export_data_interval_end inputs = Some "" ->
  fromisoformat "" = None ->
  (attrs !! "TemporalScheduledStartTime" = None ->
   get_data_interval_from_workflow_inputs inputs attrs
   = Raise (TypeError missing_search_attribute_message))
  /\ (forall v vs,
        attrs !! "TemporalScheduledStartTime" = Some (v :: vs) ->
        (forall s, v <> SAStr s) -> (forall d, v <> SADatetime d) ->
        get_data_interval_from_workflow_inputs inputs attrs
        = Raise (TypeError wrong_search_attribute_message))
  /\ (forall vs,
        attrs !! "TemporalScheduledStartTime" = Some (SAStr "" :: vs) ->
        get_data_interval_from_workflow_inputs inputs attrs
        = Raise (ValueError "Invalid isoformat string")).
Proof.
  intros Hend Hempty.
  unfold get_data_interval_from_workflow_inputs, resolve_data_interval_end.
  split; [|split].
  - intros Hattr. by destruct Hend as [-> | ->]; rewrite Hattr.
  - intros v vs Hattr Hstr Hdt.
    destruct v as [s|d|n|b]; [by destruct (Hstr s)|by destruct (Hdt d)| |];
      by destruct Hend as [-> | ->]; rewrite Hattr.
  - intros vs Hattr. unfold datetime_fromisoformat.
    by destruct Hend as [-> | ->]; rewrite Hattr, Hempty.
Qed.

End Interval.

(** ** The primitives on a world with an open file *)

Lemma string_app_nil_l (s : string) : "" +:+ s = s.
Proof. done. Qed.

Lemma string_app_cons (c : ascii) (s1 s2 : string) :
  String c s1 +:+ s2 = String c (s1 +:+ s2).
Proof. done. Qed.

Lemma string_app_nil_r (s : string) : s +:+ "" = s.
Proof.
  induction s as [|c s IH]; [done|]. by rewrite string_app_cons, IH.
Qed.

Lemma string_app_assoc (s1 s2 s3 : string) :
  (s1 +:+ s2) +:+ s3 = s1 +:+ s2 +:+ s3.
Proof.
  induction s1 as [|c s1 IH]; [done|]. by rewrite !string_app_cons, IH.
Qed.


Lemma bind_eq {S A B} (m : M S A) (k : A -> M S B) (s : S) :
  bind m k s = match m s with
               | (Ok a, s') => k a s'
               | (Raise e, s') => (Raise e, s')
               end.
Proof. done. Qed.

Lemma local_file_open tr st fs d b c :
  local_file (open_world tr st fs d b c)
  = (Ok (length fs, TmpFile d b false), open_world tr st fs d b c).
Proof.
  unfold local_file, open_world, bind, get. simpl.
  rewrite list_lookup_middle by done. done.
Qed.

Lemma insert_open_file (fs : list tmpfile) (f g : tmpfile) :
  <[length fs := g]> (fs ++ [f]) = fs ++ [g].
Proof.
  rewrite insert_app_r_alt by lia. by rewrite Nat.sub_diag.
Qed.

Lemma file_write_open data tr st fs d b c :
  file_write data (open_world tr st fs d b c)
  = (Ok tt, open_world tr st fs d (b +:+ data) c).
Proof.
  unfold file_write. rewrite bind_eq, local_file_open.
  unfold get, set_files, modify, open_world, bind. simpl.
  by rewrite insert_open_file.
Qed.

Lemma file_tell_open tr st fs d b c :
  file_tell (open_world tr st fs d b c)
  = (Ok (Z.of_nat (String.length d + String.length b)), open_world tr st fs d b c).
Proof.
  unfold file_tell. rewrite bind_eq, local_file_open. done.
Qed.

Lemma file_flush_open tr st fs d b c :
  file_flush (open_world tr st fs d b c)
  = (Ok tt, open_world tr st fs (d +:+ b) "" c).
Proof.
  unfold file_flush. rewrite bind_eq, local_file_open.
  unfold get, set_files, modify, open_world, bind. simpl.
  by rewrite insert_open_file.
Qed.

Lemma file_close_open tr st fs d b c :
  file_close (open_world tr st fs d b c)
  = (Ok tt, World tr st (fs ++ [TmpFile (d +:+ b) "" true]) (length fs) c).
Proof.
  unfold file_close, open_world, bind, get. simpl.
  rewrite list_lookup_middle by done. simpl.
  unfold set_files, modify. simpl. by rewrite insert_open_file.
Qed.

Lemma file_close_closed tr st fs d b c :
  file_close (World tr st (fs ++ [TmpFile d b true]) (length fs) c)
  = (Ok tt, World tr st (fs ++ [TmpFile d b true]) (length fs) c).
Proof.
  unfold file_close, bind, get. simpl.
  rewrite list_lookup_middle by done. done.
Qed.

Lemma named_temporary_file_after_close tr st fs f c :
  named_temporary_file (World tr st (fs ++ [f]) (length fs) c)
  = (Ok tt, open_world tr st (fs ++ [f]) "" "" c).
Proof. done. Qed.


Lemma cursor_execute_put env tbl tr st fs d c :
  cursor_execute env (PutFile (length fs) tbl) (open_world tr st fs d "" c)
  = match env_execute env (length (omap statement_of tr)) with
    | Some e => (Raise e, open_world (tr ++ [Execute (PutFile (length fs) tbl)]) st fs d "" c)
    | None => (Ok tt, open_world (tr ++ [Execute (PutFile (length fs) tbl)]) (st ++ [d]) fs d "" c)
    end.
Proof.
  unfold cursor_execute, bind, get, emit, modify, open_world, executed, queries. simpl.
  destruct (env_execute env _); [done|].
  unfold bind, get. simpl. rewrite list_lookup_middle by done. done.
Qed.

Lemma cursor_execute_other env stm tr st fs i c :
  (forall f tbl, stm <> PutFile f tbl) ->
  cursor_execute env stm (World tr st fs i c)
  = match env_execute env (length (omap statement_of tr)) with
    | Some e => (Raise e, World (tr ++ [Execute stm]) st fs i c)
    | None => (Ok tt, World (tr ++ [Execute stm]) st fs i c)
    end.
Proof.
  intros Hstm.
  unfold cursor_execute, bind, get, emit, modify, executed, queries. simpl.
  destruct (env_execute env _); [done|].
  destruct stm; try done. by destruct (Hstm file tbl).
Qed.

Section Activity.
Context `{Runtime}.
Variable inputs : SnowflakeInsertInputs.
Variable env : environment.

#[local] Abbreviation T := BATCH_EXPORT_SNOWFLAKE_UPLOAD_CHUNK_SIZE_BYTES.
#[local] Abbreviation put i := (Execute (put_file inputs i)).

Lemma staging_loop_nil w :
  staging_loop inputs env [] w
  = match env_rows_end env with
    | None => (Ok tt, w)
    | Some e => (Raise e, w)
    end.
Proof. simpl. by destruct (env_rows_end env). Qed.

Lemma staging_loop_falsy it rest w :
  truthy it = None -> staging_loop inputs env (it :: rest) w = (Ok tt, w).
Proof. intros Hit. simpl. by rewrite Hit. Qed.

Lemma staging_loop_undecodable it res e rest w :
  truthy it = Some res -> staged_row res = Raise e ->
  staging_loop inputs env (it :: rest) w = (Raise e, w).
Proof.
  intros Hit Hrow. simpl. rewrite Hit.
  unfold stage_result, bind, lift. by rewrite Hrow.
Qed.

Lemma stage_result_open res r tr st fs d b c :
  staged_row res = Ok r ->
  stage_result inputs env res (open_world tr st fs d b c)
  = let b' := b +:+ staged_line r in
    let pos := Z.of_nat (String.length d + String.length b') in
    if negb (pos =? 0) && (pos >? T) then
      match env_execute env (length (omap statement_of tr)) with
      | Some e => (Raise e, open_world (tr ++ [put (length fs)]) st fs (d +:+ b') "" c)
      | None =>
          (Ok tt, open_world (tr ++ [put (length fs)]) (st ++ [d +:+ b'])
                    (fs ++ [TmpFile (d +:+ b') "" true]) "" "" c)
      end
    else (Ok tt, open_world tr st fs d b' c).
Proof.
  intros Hrow. unfold stage_result.
  rewrite bind_eq. unfold lift at 1. rewrite Hrow.
  rewrite bind_eq, file_write_open, bind_eq, file_write_open.
  rewrite bind_eq, file_tell_open.
  unfold staged_line. rewrite <- string_app_assoc.
  set (b' := (b +:+ json_dumps (JDict r)) +:+ newline). cbv zeta.
  destruct (negb _ && _); [|done].
  rewrite bind_eq, file_flush_open.
  rewrite bind_eq. unfold get at 1.
  rewrite bind_eq. unfold put_file.
  change (w_local_results_file (open_world tr st fs (d +:+ b') "" c)) with (length fs).
  rewrite cursor_execute_put.
  destruct (env_execute env _); [done|].
  rewrite bind_eq, file_close_open, string_app_nil_r.
  by rewrite named_temporary_file_after_close.
Qed.

Lemma staging_loop_step it res r rest tr st fs d b c :
  truthy it = Some res -> staged_row res = Ok r ->
  staging_loop inputs env (it :: rest) (open_world tr st fs d b c)
  = let b' := b +:+ staged_line r in
    let pos := Z.of_nat (String.length d + String.length b') in
    if negb (pos =? 0) && (pos >? T) then
      match env_execute env (length (omap statement_of tr)) with
      | Some e => (Raise e, open_world (tr ++ [put (length fs)]) st fs (d +:+ b') "" c)
      | None =>
          staging_loop inputs env rest
            (open_world (tr ++ [put (length fs)]) (st ++ [d +:+ b'])
               (fs ++ [TmpFile (d +:+ b') "" true]) "" "" c)
      end
    else staging_loop inputs env rest (open_world tr st fs d b' c).
Proof.
  intros Hit Hrow. simpl. rewrite Hit.
  rewrite bind_eq, (stage_result_open _ _ _ _ _ _ _ _ Hrow). cbv zeta.
  destruct (negb _ && _); [|done].
  by destruct (env_execute env _).
Qed.

Lemma staging_loop_shape rows : forall tr st fs d b c,
  closed_files fs ->
  exists r st' fs' d' b' k,
    staging_loop inputs env rows (open_world tr st fs d b c)
    = (r, open_world (tr ++ map (fun i => put i) (seq (length fs) k)) st' fs' d' b' c)
    /\ closed_files fs'
    /\ ((length fs' = length fs + k)%nat
        \/ (is_Ok r = false /\ (length fs' + 1 = length fs + k)%nat))
    /\ (length st' + length fs = length st + length fs')%nat.
Proof.
  induction rows as [|it rest IH]; intros tr st fs d b c Hfs.
  - rewrite staging_loop_nil.
    destruct (env_rows_end env) as [e|];
      [exists (Raise e)|exists (Ok tt)]; exists st, fs, d, b, 0%nat;
      simpl; rewrite app_nil_r;
      (split; [done|split; [done|split; [left; lia|lia]]]).
  - destruct (truthy it) as [res|] eqn:Hit.
    2:{ rewrite staging_loop_falsy by done.
        exists (Ok tt), st, fs, d, b, 0%nat.
        simpl; rewrite app_nil_r;
          (split; [done|split; [done|split; [left; lia|lia]]]). }
    destruct (staged_row res) as [r|e] eqn:Hrow.
    2:{ rewrite (staging_loop_undecodable _ _ _ _ _ Hit Hrow).
        exists (Raise e), st, fs, d, b, 0%nat.
        simpl; rewrite app_nil_r;
          (split; [done|split; [done|split; [left; lia|lia]]]). }
    rewrite (staging_loop_step _ _ _ _ _ _ _ _ _ _ Hit Hrow). cbv zeta.
    destruct (negb _ && _).
    + destruct (env_execute env _) as [e|].
      * exists (Raise e), st, fs, (d +:+ b +:+ staged_line r), "", 1%nat.
        simpl. split; [done|split; [done|split; [right; split; [done|lia]|lia]]].
      * destruct (IH (tr ++ [put (length fs)]) (st ++ [d +:+ b +:+ staged_line r])
                    (fs ++ [TmpFile (d +:+ b +:+ staged_line r) "" true]) "" "" c)
          as (r' & st' & fs' & d' & b' & k & Heq & Hcl & Hlen & Hst).
        { apply Forall_app. split; [done|]. by constructor. }
        exists r', st', fs', d', b', (S k).
        rewrite Heq, length_app. simpl. rewrite <- app_assoc. simpl.
        rewrite Nat.add_1_r. split; [done|split; [done|]].
        rewrite !length_app in Hlen. rewrite !length_app in Hst.
        simpl in Hst, Hlen.
        split; [|lia].
        destruct Hlen as [Hlen|[Hr Hlen]]; [left|right; split; [done|]]; lia.
    + apply IH. done.
Qed.


Lemma stage_rest_and_load_open tr st fs d b c :
  stage_rest_and_load inputs env (open_world tr st fs d b c)
  = match env_execute env (length (omap statement_of tr)) with
    | Some e => (Raise e, open_world (tr ++ [put (length fs)]) st fs (d +:+ b) "" c)
    | None =>
        (match env_execute env (S (length (omap statement_of tr))) with
         | Some e => Raise e
         | None => Ok tt
         end,
         World (tr ++ [put (length fs); Execute (copy_into inputs)])
               (st ++ [d +:+ b]) (fs ++ [TmpFile (d +:+ b) "" true]) (length fs) c)
    end.
Proof.
  unfold stage_rest_and_load.
  rewrite bind_eq, file_flush_open.
  rewrite bind_eq. unfold get at 1.
  rewrite bind_eq. unfold put_file.
  change (w_local_results_file (open_world tr st fs (d +:+ b) "" c)) with (length fs).
  rewrite cursor_execute_put.
  destruct (env_execute env (length (omap statement_of tr))); [done|].
  rewrite bind_eq, file_close_open, string_app_nil_r.
  rewrite cursor_execute_other by done.
  rewrite omap_app, length_app. simpl. rewrite Nat.add_1_r.
  rewrite <- app_assoc. simpl.
  by destruct (env_execute env _).
Qed.

Lemma stage_and_load_shape tr c :
  exists r st' fs' f k tail,
    stage_and_load inputs env (World tr [] [] 0%nat c)
    = (r, World (tr ++ map (fun i => put i) (seq 0 k) ++ map Execute tail)
                st' (fs' ++ [f]) (length fs') c)
    /\ closed_files (fs' ++ [f])
    /\ (tail = [] \/ tail = [copy_into inputs])
    /\ (k <= length (fs' ++ [f]))%nat
    /\ (tail = [copy_into inputs] -> k = length (fs' ++ [f]))
    /\ (is_Ok r = true -> tail = [copy_into inputs])
    /\ (tail = [copy_into inputs] <-> length st' = length (fs' ++ [f])).
Proof.
  unfold stage_and_load. rewrite bind_eq.
  change (named_temporary_file (World tr [] [] 0%nat c))
    with (Ok tt, open_world tr [] [] "" "" c).
  unfold try_finally. rewrite bind_eq.
  destruct (staging_loop_shape (env_rows env) tr [] [] "" "" c)
    as (r & st' & fs' & d' & b' & k & Heq & Hcl & Hlen & Hst); [constructor|].
  cbn [length] in Heq. rewrite Heq. simpl in Hlen, Hst.
  destruct r as [[]|e].
  - destruct Hlen as [Hlen|[? ?]]; [|done].
    rewrite stage_rest_and_load_open.
    rewrite omap_app, length_app.
    destruct (env_execute env _) as [e|].
    + rewrite file_close_open, string_app_nil_r.
      exists (Raise e), st', fs', (TmpFile (d' +:+ b') "" true), (S k), [].
      rewrite seq_S, map_app, <- !app_assoc. simpl. rewrite Hlen.
      split; [done|]. split; [apply Forall_app; split; [done|by constructor]|].
      split; [by left|]. rewrite length_app. simpl.
      split; [lia|]. split; [done|]. split; [done|].
      split; [done|lia].
    + rewrite file_close_closed.
      exists (match env_execute env
                      (S (length (omap statement_of tr)
                          + length (omap statement_of
                                      (map (fun i => put i) (seq 0 k)))))
              with Some e => Raise e | None => Ok tt end),
        (st' ++ [d' +:+ b']), fs', (TmpFile (d' +:+ b') "" true), (S k),
        [copy_into inputs].
      rewrite seq_S, map_app, <- !app_assoc. simpl. rewrite Hlen.
      split; [done|].
      split; [apply Forall_app; split; [done|by constructor]|].
      split; [by right|]. rewrite !length_app. simpl.
      split; [lia|]. split; [intros; lia|]. split; [done|].
      split; [lia|done].
  - rewrite file_close_open.
    exists (Raise e), st', fs', (TmpFile (d' +:+ b') "" true), k, [].
    simpl. rewrite app_nil_r.
    split; [done|]. split; [apply Forall_app; split; [done|by constructor]|].
    split; [by left|]. rewrite length_app. simpl.
    split; [lia|]. split; [done|]. split; [done|].
    split; [done|lia].
Qed.


Lemma omap_statement_of_execute (qs : list statement) :
  omap statement_of (map Execute qs) = qs.
Proof. induction qs as [|q qs IH]; [done|]. simpl. f_equal. exact IH. Qed.

Lemma omap_statement_of_put (ids : list nat) :
  omap statement_of (map (fun i => put i) ids) = map (put_file inputs) ids.
Proof. induction ids as [|i ids IH]; [done|]. simpl. f_equal. exact IH. Qed.

Lemma file_content_snoc (cur : list string) (l : string) :
  file_content (cur ++ [l]) = file_content cur +:+ l.
Proof.
  induction cur as [|x cur IH]; simpl.
  - apply string_app_nil_r.
  - by rewrite IH, string_app_assoc.
Qed.

(** The loop when nothing fails, in terms of [chunk_lines]. *)
Lemma staging_loop_success (c : conn_state) (items : list item)
    (lines : list string) :
  (forall n, env_execute env n = None) ->
  env_rows_end env = None ->
  Forall2 writes_line items lines ->
  forall tr st fs cur,
    staging_loop inputs env items (open_world tr st fs "" (file_content cur) c)
    = (Ok tt,
       open_world
         (tr ++ map (fun i => put i)
                    (seq (length fs) (length (chunk_lines T cur lines).1)))
         (st ++ map file_content (chunk_lines T cur lines).1)
         (fs ++ map sealed_file (chunk_lines T cur lines).1)
         "" (file_content (chunk_lines T cur lines).2) c).
Proof.
  intros Hexec Hend Hlines.
  induction Hlines as [|it l items lines (res & r & Hit & Hrow & ->) _ IH];
    intros tr st fs cur.
  - rewrite staging_loop_nil, Hend. simpl. by rewrite !app_nil_r.
  - rewrite (staging_loop_step _ _ _ _ _ _ _ _ _ _ Hit Hrow). cbv zeta.
    rewrite Hexec, string_app_nil_l, <- file_content_snoc.
    simpl chunk_lines. simpl String.length at 1. simpl Nat.add.
    destruct (negb _ && _).
    + change "" with (file_content []) at 3. rewrite IH.
      destruct (chunk_lines T [] lines) as [sealed rest]. simpl.
      rewrite length_app, <- !app_assoc. simpl. by rewrite Nat.add_1_r.
    + apply IH.
Qed.

(** Either the connection is closed, or the trace shows it was never made. *)
Ltac conn_closed :=
  first
    [ by intros _
    | let Hin := fresh "Hin" in
      intros Hin;
      repeat (apply elem_of_cons in Hin as [Hin|Hin]; [discriminate Hin|]);
      by apply elem_of_nil in Hin ].

(** The shape of every run of the activity, whatever fails. *)
Lemma run_activity_shape :
  let '(r, w) := run_activity inputs env in
  closed_files (w_files w)
  /\ w_conn w <> ConnOpen
  /\ (Connect ∈ w_trace w -> w_conn w = ConnClosed)
  /\ ((exists m, (m < 3)%nat /\ queries w = take m (prelude inputs))
      \/ exists k tail,
           queries w
           = prelude inputs ++ map (put_file inputs) (seq 0 k) ++ tail
           /\ (tail = [] \/ tail = [copy_into inputs])
           /\ (k <= length (w_files w))%nat
           /\ (tail = [copy_into inputs] -> k = length (w_files w))
           /\ (is_Ok r = true -> tail = [copy_into inputs])
           /\ (w_files w <> [] ->
               (tail = [copy_into inputs]
                <-> length (w_staged_files w) = length (w_files w)))).
Proof.
  unfold run_activity, insert_into_snowflake_activity.
  rewrite bind_eq.
  change (emit ClientOpen initial_world)
    with (Ok tt, World [ClientOpen] [] [] 0%nat NoConnection).
  unfold try_finally at 1, export_rows.
  rewrite bind_eq.
  change (client_is_alive env (World [ClientOpen] [] [] 0%nat NoConnection))
    with (Ok (env_is_alive env), World [ClientOpen; IsAlive] [] [] 0%nat NoConnection).
  destruct (env_is_alive env); cbn [negb].
  2:{ simpl. split; [constructor|]. split; [done|]. split; [conn_closed|].
      left. exists 0%nat. split; [lia|done]. }
  rewrite bind_eq.
  change (get_rows_count env (World [ClientOpen; IsAlive] [] [] 0%nat NoConnection))
    with (env_rows_count env,
          World [ClientOpen; IsAlive; RowsCount] [] [] 0%nat NoConnection).
  destruct (env_rows_count env) as [count|e].
  2:{ simpl. split; [constructor|]. split; [done|]. split; [conn_closed|].
      left. exists 0%nat. split; [lia|done]. }
  destruct (count =? 0).
  { simpl. split; [constructor|]. split; [done|]. split; [conn_closed|].
    left. exists 0%nat. split; [lia|done]. }
  rewrite bind_eq. unfold snowflake_connect.
  destruct (env_connect env) as [e|].
  { simpl. split; [constructor|]. split; [done|]. split; [conn_closed|].
    left. exists 0%nat. split; [lia|done]. }
  change ((emit Connect;; set_conn ConnOpen)
            (World [ClientOpen; IsAlive; RowsCount] [] [] 0%nat NoConnection))
    with (Ok tt, World [ClientOpen; IsAlive; RowsCount; Connect] [] [] 0%nat ConnOpen).
  unfold try_finally at 1.
  rewrite bind_eq, cursor_execute_other by done. simpl length.
  destruct (env_execute env 0) as [e|].
  { simpl. split; [constructor|]. split; [done|]. split; [conn_closed|].
    left. exists 1%nat. split; [lia|done]. }
  rewrite bind_eq, cursor_execute_other by done. simpl length.
  destruct (env_execute env 1) as [e|].
  { simpl. split; [constructor|]. split; [done|]. split; [conn_closed|].
    left. exists 2%nat. split; [lia|done]. }
  rewrite bind_eq, cursor_execute_other by done. simpl length.
  destruct (env_execute env 2) as [e|].
  { simpl. split; [constructor|]. split; [done|]. split; [conn_closed|].
    right. exists 0%nat, []. simpl.
    split; [done|]. split; [by left|]. split; [lia|]. split; [done|].
    split; [done|]. by intros []. }
  destruct (stage_and_load_shape
              ((([ClientOpen; IsAlive; RowsCount; Connect]
                 ++ [Execute (UseDatabase (database inputs))])
                ++ [Execute (UseSchema (schema inputs))])
               ++ [Execute (create_table inputs)]) ConnOpen)
    as (r & st' & fs' & f & k & tail & Heq & Hcl & Htail & Hk & Hcopy & Hok
        & Hall).
  rewrite Heq. simpl.
  split; [done|]. split; [done|]. split; [done|].
  right. exists k, tail.
  unfold queries. simpl.
  rewrite !omap_app, omap_statement_of_put, omap_statement_of_execute. simpl.
  rewrite !app_nil_r.
  split; [done|]. split; [done|]. split; [done|]. split; [done|].
  split; [done|]. by intros _.
Qed.


(** A run in which the source answers, there are rows and nothing fails:
    the world it leaves, in terms of [chunk_lines]. *)
Lemma run_activity_success (count : Z) (lines : list string) :
  env_is_alive env = true ->
  env_rows_count env = Ok count ->
  count <> 0 ->
  all_succeed env ->
  env_rows_end env = None ->
  Forall2 writes_line (env_rows env) lines ->
  run_activity inputs env
  = (Ok tt,
     loaded_world inputs
       ((chunk_lines T [] lines).1 ++ [(chunk_lines T [] lines).2])).
Proof.
  intros Halive Hcount Hnz [Hconn Hexec] Hend Hlines.
  unfold run_activity, insert_into_snowflake_activity.
  rewrite bind_eq.
  change (emit ClientOpen initial_world)
    with (Ok tt, World [ClientOpen] [] [] 0%nat NoConnection).
  unfold try_finally at 1, export_rows.
  rewrite bind_eq.
  change (client_is_alive env (World [ClientOpen] [] [] 0%nat NoConnection))
    with (Ok (env_is_alive env), World [ClientOpen; IsAlive] [] [] 0%nat NoConnection).
  rewrite Halive. cbn [negb].
  rewrite bind_eq.
  change (get_rows_count env (World [ClientOpen; IsAlive] [] [] 0%nat NoConnection))
    with (env_rows_count env,
          World [ClientOpen; IsAlive; RowsCount] [] [] 0%nat NoConnection).
  rewrite Hcount.
  destruct (Z.eqb_spec count 0) as [|_]; [done|].
  rewrite bind_eq. unfold snowflake_connect. rewrite Hconn.
  change ((emit Connect;; set_conn ConnOpen)
            (World [ClientOpen; IsAlive; RowsCount] [] [] 0%nat NoConnection))
    with (Ok tt, World [ClientOpen; IsAlive; RowsCount; Connect] [] [] 0%nat ConnOpen).
  unfold try_finally at 1.
  rewrite bind_eq, cursor_execute_other, Hexec by done.
  rewrite bind_eq, cursor_execute_other, Hexec by done.
  rewrite bind_eq, cursor_execute_other, Hexec by done.
  unfold stage_and_load. rewrite bind_eq.
  match goal with
  | |- context [named_temporary_file (World ?tr [] [] 0%nat ConnOpen)] =>
      change (named_temporary_file (World tr [] [] 0%nat ConnOpen))
        with (Ok tt, open_world tr [] [] "" (file_content []) ConnOpen)
  end.
  unfold try_finally. rewrite bind_eq.
  rewrite (staging_loop_success ConnOpen _ _ Hexec Hend Hlines).
  destruct (chunk_lines T [] lines) as [sealed rest]. cbn [fst snd].
  rewrite stage_rest_and_load_open, !Hexec, string_app_nil_l.
  rewrite !app_nil_l, file_close_closed.
  unfold loaded_world, conn_close, prelude, sealed_file. simpl.
  rewrite !length_app, !map_app, seq_app, !map_app, !length_map. simpl.
  rewrite Nat.add_1_r. simpl. rewrite <- !app_assoc. simpl.
  by rewrite map_map.
Qed.


(** *** The files the loop seals *)

(** Sealing keeps every line, once and in order. *)
Lemma chunk_lines_concat (lines : list string) : forall cur,
  concat ((chunk_lines T cur lines).1 ++ [(chunk_lines T cur lines).2])
  = cur ++ lines.
Proof.
  induction lines as [|l lines IH]; intros cur; simpl.
  - by rewrite !app_nil_r.
  - destruct (negb _ && _).
    + specialize (IH []). destruct (chunk_lines T [] lines) as [sealed rest].
      simpl in *. by rewrite IH, <- app_assoc.
    + rewrite IH. by rewrite <- app_assoc.
Qed.


(** When every line alone is longer than the chunk size, every line is
    sealed in a file of its own and the current file is left empty. *)
Lemma chunk_lines_singletons (lines : list string) :
  Forall (fun l => 0 < Z.of_nat (String.length l)
                   /\ T < Z.of_nat (String.length l)) lines ->
  chunk_lines T [] lines = (map (fun l => [l]) lines, []).
Proof.
  induction 1 as [|l lines [Hpos Hlong] _ IH]; [done|].
  simpl. rewrite string_app_nil_r.
  destruct (Z.eqb_spec (Z.of_nat (String.length l)) 0) as [|_]; [lia|].
  destruct (Z.gtb_spec (Z.of_nat (String.length l)) T) as [_|]; [|lia].
  simpl. by rewrite IH.
Qed.

(** *** A result that is not truthy ends the loop *)

Lemma staging_loop_stops (it : item) (pre post rows : list item) :
  truthy it = None ->
  forall w,
    staging_loop inputs env (pre ++ it :: post) w
    = staging_loop inputs (stop_after env rows) pre w.
Proof.
  intros Hit. induction pre as [|x pre IH]; intros w; simpl.
  - by rewrite Hit.
  - destruct (truthy x) as [res|]; [|done].
    rewrite !bind_eq.
    change (stage_result inputs (stop_after env rows) res w)
      with (stage_result inputs env res w).
    destruct (stage_result inputs env res w) as [[[]|e] w']; [|done].
    apply IH.
Qed.


Section Stops.
Variables (it : item) (pre post : list item).
Hypothesis Hit : truthy it = None.
Hypothesis Hrows : env_rows env = pre ++ it :: post.

Lemma stage_and_load_stops (w : world) :
  stage_and_load inputs env w = stage_and_load inputs (stop_after env pre) w.
Proof.
  unfold stage_and_load. rewrite !bind_eq.
  destruct (named_temporary_file w) as [[[]|e] w1]; [|done].
  unfold try_finally. rewrite !bind_eq, Hrows. simpl env_rows.
  by rewrite (staging_loop_stops it pre post pre Hit).
Qed.

Lemma export_rows_stops (w : world) :
  export_rows inputs env w = export_rows inputs (stop_after env pre) w.
Proof.
  unfold export_rows. rewrite !bind_eq.
  change (client_is_alive (stop_after env pre) w) with (client_is_alive env w).
  destruct (client_is_alive env w) as [[[|]|e] w1]; [|done|done].
  cbn [negb]. rewrite !bind_eq.
  change (get_rows_count (stop_after env pre) w1) with (get_rows_count env w1).
  destruct (get_rows_count env w1) as [[count|e] w2]; [|done].
  destruct (count =? 0); [done|].
  rewrite !bind_eq.
  change (snowflake_connect (stop_after env pre) w2)
    with (snowflake_connect env w2).
  destruct (snowflake_connect env w2) as [[[]|e] w3]; [|done].
  unfold try_finally. rewrite !bind_eq.
  change (cursor_execute (stop_after env pre)) with (cursor_execute env).
  destruct (cursor_execute env (UseDatabase (database inputs)) w3)
    as [[[]|e] w4]; [|done].
  rewrite !bind_eq.
  destruct (cursor_execute env (UseSchema (schema inputs)) w4)
    as [[[]|e] w5]; [|done].
  rewrite !bind_eq.
  destruct (cursor_execute env (create_table inputs) w5)
    as [[[]|e] w6]; [|done].
  by rewrite stage_and_load_stops.
Qed.

Lemma run_activity_stops :
  run_activity inputs env = run_activity inputs (stop_after env pre).
Proof.
  unfold run_activity, insert_into_snowflake_activity.
  rewrite !bind_eq.
  destruct (emit ClientOpen initial_world) as [[[]|e] w]; [|done].
  unfold try_finally. by rewrite export_rows_stops.
Qed.

End Stops.


(** *** Runs that end before the destination is touched *)

Lemma run_activity_unreachable :
  env_is_alive env = false ->
  run_activity inputs env
  = (Raise (ConnectionError "Cannot establish connection to ClickHouse"),
     unreachable_world).
Proof.
  intros Halive.
  unfold run_activity, insert_into_snowflake_activity, export_rows,
    client_is_alive, try_finally, bind, emit, modify, ret.
  simpl. by rewrite Halive.
Qed.

Lemma run_activity_empty :
  env_is_alive env = true ->
  env_rows_count env = Ok 0 ->
  run_activity inputs env = (Ok tt, empty_exit_world).
Proof.
  intros Halive Hcount.
  unfold run_activity, insert_into_snowflake_activity, export_rows,
    client_is_alive, get_rows_count, try_finally, bind, emit, modify, ret, lift.
  simpl. by rewrite Halive, Hcount.
Qed.

(** *** The statements of a run that staged and loaded *)

Lemma staging_calls_put (ids : list nat) :
  staging_calls (map (put_file inputs) ids) = map (put_file inputs) ids.
Proof.
  unfold staging_calls. induction ids as [|i ids IH]; [done|].
  simpl. rewrite filter_cons_True by done. by rewrite IH.
Qed.

Lemma queries_loaded_world (groups : list (list string)) :
  queries (loaded_world inputs groups)
  = prelude inputs ++ map (put_file inputs) (seq 0 (length groups))
    ++ [copy_into inputs].
Proof.
  unfold queries, loaded_world. cbn [w_trace].
  rewrite !omap_app, omap_statement_of_execute. simpl. by rewrite app_nil_r.
Qed.

Lemma staging_calls_loaded_world (groups : list (list string)) :
  staging_calls (queries (loaded_world inputs groups))
  = map (put_file inputs) (seq 0 (length groups)).
Proof.
  rewrite queries_loaded_world. unfold staging_calls, prelude.
  rewrite !filter_app.
  change (filter _ (map (put_file inputs) (seq 0 (length groups))))
    with (staging_calls (map (put_file inputs) (seq 0 (length groups)))).
  rewrite staging_calls_put.
  rewrite !filter_cons_False by (simpl; congruence).
  by rewrite filter_nil, app_nil_r.
Qed.

(** C9: whatever the collaborators answer and wherever the run stops,
    it leaves no temporary file open and no Snowflake connection open;
    a connection that was made is closed. *)
Theorem resources_released :
  closed_files (w_files (run_activity inputs env).2)
  /\ w_conn (run_activity inputs env).2 <> ConnOpen
  /\ (Connect ∈ w_trace (run_activity inputs env).2 ->
      w_conn (run_activity inputs env).2 = ConnClosed).
Proof.
  pose proof run_activity_shape as Hshape.
  destruct (run_activity inputs env) as [r w]. simpl. tauto.
Qed.

(** C3: in every run that sends a PUT, the statements sent are
    USE DATABASE, USE SCHEMA, CREATE TABLE IF NOT EXISTS, then the PUTs of
    the temporary files 0, 1, ... in the order the files were made, then at
    most one COPY INTO (JSON, case-sensitive column match, purge), which is
    last.  The COPY INTO is sent exactly when every temporary file of the
    run has been staged, and then after all their PUTs; a run that returns
    has sent it, once. *)
Theorem statements_in_order :
  (exists i, put_file inputs i ∈ queries (run_activity inputs env).2) ->
  exists k tail,
    queries (run_activity inputs env).2
    = prelude inputs ++ map (put_file inputs) (seq 0 k) ++ tail
    /\ (tail = [] \/ tail = [copy_into inputs])
    /\ copy_into inputs = CopyInto (table_name inputs) "JSON" "CASE_SENSITIVE" true
    /\ (k <= length (w_files (run_activity inputs env).2))%nat
    /\ (tail = [copy_into inputs] ->
        k = length (w_files (run_activity inputs env).2))
    /\ (tail = [copy_into inputs]
        <-> length (w_staged_files (run_activity inputs env).2)
            = length (w_files (run_activity inputs env).2))
    /\ (is_Ok (run_activity inputs env).1 = true -> tail = [copy_into inputs]).
Proof.
  pose proof run_activity_shape as Hshape.
  destruct (run_activity inputs env) as [r w]. simpl.
  destruct Hshape as (_ & _ & _ & [(m & Hm & Hq)|(k & tail & Hq & Hrest)]);
    intros [i Hi].
  - exfalso. rewrite Hq in Hi. unfold prelude, put_file, create_table in Hi.
    destruct m as [|[|[|m]]]; [| | |lia]; simpl in Hi;
      repeat (apply elem_of_cons in Hi as [Hi|Hi]; [discriminate Hi|]);
      by apply elem_of_nil in Hi.
  - exists k, tail.
    destruct Hrest as (Htail & Hk & Hcopy & Hok & Hall).
    assert (w_files w <> []) as Hfiles.
    { intros Hnil. rewrite Hnil in Hk. simpl in Hk.
      assert (k = 0%nat) as -> by lia.
      rewrite Hq in Hi. unfold prelude, put_file, create_table, copy_into in Hi.
      destruct Htail as [-> | ->]; simpl in Hi;
        repeat (apply elem_of_cons in Hi as [Hi|Hi]; [discriminate Hi|]);
        by apply elem_of_nil in Hi. }
    specialize (Hall Hfiles). tauto.
Qed.

(** C8: when the liveness check of the source fails the run raises
    [ConnectionError] having only opened the client and asked: no count, no
    connection to Snowflake, no statement, no file.  The retry policy of the
    insert activity lists [ConnectionError] as non-retryable, so the
    workflow makes that one attempt only. *)
Theorem unreachable_source_is_not_retried (envs : nat -> environment) :
  envs 0%nat = env ->
  env_is_alive env = false ->
  run_activity inputs env
  = (Raise (ConnectionError "Cannot establish connection to ClickHouse"),
     unreachable_world)
  /\ (RowsCount ∉ w_trace unreachable_world)
  /\ (Connect ∉ w_trace unreachable_world)
  /\ queries unreachable_world = []
  /\ w_files unreachable_world = []
  /\ "ConnectionError" ∈ non_retryable_error_types insert_into_snowflake_policy
  /\ execute_activity insert_into_snowflake_policy
       (fun k => run_activity inputs (envs k))
     = (Raise (ConnectionError "Cannot establish connection to ClickHouse"),
        [unreachable_world]).
Proof.
  intros Henv Halive.
  split; [by apply run_activity_unreachable|].
  split; [conn_closed|]. split; [conn_closed|].
  split; [done|]. split; [done|].
  split; [set_solver|].
  unfold execute_activity. simpl.
  rewrite Henv, run_activity_unreachable by done. done.
Qed.

(** C4 (amended): when nothing fails, every temporary file the run made
    is staged by one PUT, in order and before the one COPY INTO; the file
    left when the rows end is staged whatever its size, also when it is
    empty.  When every line alone exceeds the chunk size, the [N] rows give
    [N + 1] PUTs: one file per row and a last, empty file. *)
Theorem every_file_staged_and_one_more (count : Z) (lines : list string) :
  env_is_alive env = true ->
  env_rows_count env = Ok count ->
  count <> 0 ->
  all_succeed env ->
  env_rows_end env = None ->
  Forall2 writes_line (env_rows env) lines ->
  exists sealed rest,
    chunk_lines T [] lines = (sealed, rest)
    /\ run_activity inputs env = (Ok tt, loaded_world inputs (sealed ++ [rest]))
    /\ queries (run_activity inputs env).2
       = prelude inputs
         ++ map (put_file inputs) (seq 0 (length (w_files (run_activity inputs env).2)))
         ++ [copy_into inputs]
    /\ w_staged_files (run_activity inputs env).2
       = map file_content sealed ++ [file_content rest]
    /\ length (staging_calls (queries (run_activity inputs env).2))
       = S (length sealed)
    /\ (Forall (fun l => 0 < Z.of_nat (String.length l)
                         /\ T < Z.of_nat (String.length l)) lines ->
        w_staged_files (run_activity inputs env).2 = lines ++ [""]
        /\ length (staging_calls (queries (run_activity inputs env).2))
           = S (length lines)).
Proof.
  intros Halive Hcount Hnz Hok Hend Hlines.
  pose proof (run_activity_success count lines Halive Hcount Hnz Hok Hend Hlines)
    as Hrun.
  destruct (chunk_lines T [] lines) as [sealed rest] eqn:Hchunk.
  exists sealed, rest. simpl in Hrun. rewrite Hrun. cbn [snd].
  split; [done|]. split; [done|].
  rewrite staging_calls_loaded_world, queries_loaded_world, length_map, length_seq.
  unfold loaded_world. cbn [w_files w_staged_files].
  rewrite length_map, map_app, length_app, Nat.add_1_r. cbn [map].
  split; [done|]. split; [done|]. split; [done|].
  intros Hlong. rewrite chunk_lines_singletons in Hchunk by done.
  injection Hchunk as <- <-.
  split; [|by rewrite length_map]. f_equal.
  clear. induction lines as [|l lines IH]; [done|].
  simpl. f_equal; [apply string_app_nil_r|exact IH].
Qed.


End Activity.

(** ** Runs over the rows of a source store *)

Section Rows.
Context `{Runtime}.
Variable inputs : SnowflakeInsertInputs.

#[local] Abbreviation T := BATCH_EXPORT_SNOWFLAKE_UPLOAD_CHUNK_SIZE_BYTES.

(** C10: a result that is not truthy ends the loop like the end of the
    rows: the run is the run of an iterator that stops before it, whatever
    comes after it; when nothing fails, the files staged hold the lines of
    the rows before it and nothing else, the last PUT and the COPY INTO are
    sent, and the run returns. *)
Theorem falsy_result_ends_the_rows (env : environment) (it : item)
    (pre post : list item) (count : Z) (lines : list string) :
  truthy it = None ->
  env_rows env = pre ++ it :: post ->
  run_activity inputs env = run_activity inputs (stop_after env pre)
  /\ (env_is_alive env = true ->
      env_rows_count env = Ok count ->
      count <> 0 ->
      all_succeed env ->
      Forall2 writes_line pre lines ->
      exists groups,
        concat groups = lines
        /\ run_activity inputs env = (Ok tt, loaded_world inputs groups)
        /\ w_staged_files (run_activity inputs env).2 = map file_content groups
        /\ queries (run_activity inputs env).2
           = prelude inputs
             ++ map (put_file inputs) (seq 0 (length groups))
             ++ [copy_into inputs]).
Proof.
  intros Hit Hrows.
  pose proof (run_activity_stops inputs env it pre post Hit Hrows) as Hstop.
  split; [done|].
  intros Halive Hcount Hnz Hok Hlines.
  exists ((chunk_lines T [] lines).1 ++ [(chunk_lines T [] lines).2]).
  split; [apply chunk_lines_concat|].
  rewrite Hstop.
  rewrite (run_activity_success inputs (stop_after env pre) count lines)
    by done.
  split; [done|]. split; [done|]. apply queries_loaded_world.
Qed.


Lemma selected_row_truthy (team : Z) (s e : datetime) (r : row) :
  selected team s e r = true -> truthy (Some r) = Some r.
Proof. destruct r as [|kv r]; [done|done]. Qed.

Lemma line_of_row_writes_line (r : row) (l : string) :
  truthy (Some r) = Some r -> line_of_row r l -> writes_line (Some r) l.
Proof.
  intros Htruthy (properties & Hloads & ->).
  exists r, (dict_set r "properties" properties).
  split; [done|]. split; [|done].
  unfold staged_row. by rewrite Hloads.
Qed.

Lemma source_environment_selected (store : list row) (s e : datetime) :
  fromisoformat (data_interval_start inputs) = Some s ->
  fromisoformat (data_interval_end inputs) = Some e ->
  source_environment store inputs
  = Environment true
      (Ok (Z.of_nat (length (filter (fun r => selected (team_id inputs) s e r = true) store))))
      (map Some (filter (fun r => selected (team_id inputs) s e r = true) store))
      None None (fun _ => None).
Proof.
  intros Hs He. unfold source_environment, select_rows. by rewrite Hs, He.
Qed.

(** C1: the run over a source store stages the lines of exactly the
    stored rows whose timestamp lies in [start, end) and whose team is the
    given one: the staged files, read in order, are those lines, each once
    and in the order of the store, and each line is the row as one JSON
    object and a newline, with the text of its properties replaced by the
    value it decodes to. *)
Theorem selected_rows_staged_once (store : list row) (s e : datetime) :
  fromisoformat (data_interval_start inputs) = Some s ->
  fromisoformat (data_interval_end inputs) = Some e ->
  Forall (fun r => exists l, line_of_row r l)
         (filter (fun r => selected (team_id inputs) s e r = true) store) ->
  exists (rows : list row) (lines : list string) (groups : list (list string)),
    (forall r, r ∈ rows <-> r ∈ store /\ selected (team_id inputs) s e r = true)
    /\ rows = filter (fun r => selected (team_id inputs) s e r = true) store
    /\ Forall2 line_of_row rows lines
    /\ concat groups = lines
    /\ (run_activity inputs (source_environment store inputs)).1 = Ok tt
    /\ w_staged_files (run_activity inputs (source_environment store inputs)).2
       = map file_content groups.
Proof.
  intros Hs He Hdec.
  rewrite (source_environment_selected store s e Hs He).
  set (rows := filter (fun r => selected (team_id inputs) s e r = true) store) in *.
  assert (Hsel : Forall (fun r => selected (team_id inputs) s e r = true) rows).
  { apply Forall_forall. intros r Hr. by apply list_elem_of_filter in Hr as [? _]. }
  assert (exists lines, Forall2 line_of_row rows lines
                        /\ Forall2 writes_line (map Some rows) lines)
    as (lines & Hlines & Hwrites).
  { clearbody rows. induction rows as [|r rows IH]; [by exists []|].
    apply Forall_cons in Hdec as [[l Hl] Hdec].
    apply Forall_cons in Hsel as [Hr Hsel].
    destruct (IH Hdec Hsel) as (lines & Hlines & Hwrites).
    exists (l :: lines). split; [by constructor|].
    simpl. constructor; [|done].
    apply line_of_row_writes_line; [|done].
    by eapply selected_row_truthy. }
  assert (Hmem : forall r,
             r ∈ rows <-> r ∈ store /\ selected (team_id inputs) s e r = true).
  { intros r. unfold rows. rewrite list_elem_of_filter. tauto. }
  destruct (decide (rows = [])) as [Hnil|Hne].
  - exists rows, [], [].
    split; [done|]. split; [done|].
    split; [rewrite Hnil; constructor|]. split; [done|].
    rewrite Hnil. by rewrite run_activity_empty.
  - exists rows, lines,
      ((chunk_lines T [] lines).1 ++ [(chunk_lines T [] lines).2]).
    split; [done|]. split; [done|]. split; [done|].
    split; [apply chunk_lines_concat|].
    rewrite (run_activity_success inputs _ (Z.of_nat (length rows)) lines);
      [done|done|done| |done|done|done].
    destruct rows; [done|simpl; lia].
Qed.

End Rows.

(** ** The workflow *)

Section Workflow.
Context `{Runtime}.
Variable inputs : SnowflakeBatchExportInputs.
Variable env : workflow_environment.

(** The status the workflow reports for an outcome of the insert
    activity. *)
Lemma run_workflow_after_creation (interval : datetime * datetime)
    (rid : string) :
  get_data_interval_from_workflow_inputs inputs (wf_search_attributes env)
  = Ok interval ->
  create_outcome env = Ok rid ->
  let insert_inputs := insert_inputs_of inputs interval in
  let reported :=
    {| run_id := rid;
       status := if is_Ok (insert_outcome env insert_inputs)
                 then "Completed" else "Failed" |} in
  run_workflow inputs env
  = (match update_outcome env with
     | Ok _ => insert_outcome env insert_inputs
     | Raise e => Raise e
     end,
     WorkflowState
       [CreateExportRun (create_inputs_of inputs interval)
          (length (execute_activity create_export_run_policy
                     (fun k => (wf_create_export_run env k, tt))).2);
        InsertIntoSnowflake insert_inputs
          (execute_activity insert_into_snowflake_policy
             (fun k => run_activity insert_inputs (wf_insert env k))).2;
        UpdateExportRunStatus reported
          (length (execute_activity update_export_run_status_policy
                     (fun k => (wf_update_export_run_status env k, tt))).2)]
       (Some reported)).
Proof.
  intros Hinterval Hcreate insert_inputs reported.
  unfold run_workflow, run. rewrite bind_eq. unfold lift at 1.
  rewrite Hinterval. rewrite bind_eq.
  unfold execute_create_export_run, create_outcome in *.
  destruct (execute_activity create_export_run_policy _) as [rc oc].
  simpl in Hcreate. subst rc.
  unfold try_finally, try_except, execute_insert_into_snowflake,
    execute_update_export_run_status, update_outcome, insert_outcome in *.
  subst reported insert_inputs.
  destruct (execute_activity insert_into_snowflake_policy _) as [ri oi].
  destruct (execute_activity update_export_run_status_policy _) as [ru ou].
  destruct ri as [[]|ei], ru as [[]|eu]; reflexivity.
Qed.


(** C2 (amended): once the run record is created, the workflow schedules
    the status update exactly once, as its last activity, whatever the
    insert activity did; the status is Completed exactly when the insert
    activity returned and Failed when it raised; and when the update itself
    returns, the workflow returns if the insert activity did and raises the
    insert activity's own exception otherwise. *)
Theorem status_updated_once_after_creation (interval : datetime * datetime)
    (rid : string) :
  get_data_interval_from_workflow_inputs inputs (wf_search_attributes env)
  = Ok interval ->
  create_outcome env = Ok rid ->
  exists reported calls tries,
    status_updates (run_workflow inputs env).2 = [reported]
    /\ ws_calls (run_workflow inputs env).2
       = calls ++ [UpdateExportRunStatus reported tries]
    /\ run_id reported = rid
    /\ (status reported = "Completed"
        <-> is_Ok (insert_outcome env (insert_inputs_of inputs interval)) = true)
    /\ (status reported = "Failed"
        <-> is_Ok (insert_outcome env (insert_inputs_of inputs interval)) = false)
    /\ (is_Ok (update_outcome env) = true ->
        (run_workflow inputs env).1
        = insert_outcome env (insert_inputs_of inputs interval)).
Proof.
  intros Hinterval Hcreate.
  rewrite (run_workflow_after_creation interval rid Hinterval Hcreate).
  cbv zeta. cbn [fst snd ws_calls].
  eexists _, [_; _], _.
  split; [reflexivity|]. split; [reflexivity|]. split; [reflexivity|].
  cbn [status].
  destruct (insert_outcome env (insert_inputs_of inputs interval)) as [[]|e];
    simpl; (split; [done|]); (split; [done|]);
    by destruct (update_outcome env).
Qed.

(** C5 (amended): when the count of rows is zero the insert activity
    returns after the count, on its first attempt: it opens no connection
    to Snowflake, sends no statement at all (no table is created, nothing is
    staged or loaded) and makes no file; the workflow reports the status
    Completed, and returns when the update does. *)
Theorem empty_interval_completes_untouched (interval : datetime * datetime)
    (rid : string) :
  get_data_interval_from_workflow_inputs inputs (wf_search_attributes env)
  = Ok interval ->
  create_outcome env = Ok rid ->
  env_is_alive (wf_insert env 0%nat) = true ->
  env_rows_count (wf_insert env 0%nat) = Ok 0 ->
  run_activity (insert_inputs_of inputs interval) (wf_insert env 0%nat)
  = (Ok tt, empty_exit_world)
  /\ queries empty_exit_world = []
  /\ w_conn empty_exit_world = NoConnection
  /\ w_files empty_exit_world = []
  /\ w_staged_files empty_exit_world = []
  /\ (exists tries tries',
        ws_calls (run_workflow inputs env).2
        = [CreateExportRun (create_inputs_of inputs interval) tries;
           InsertIntoSnowflake (insert_inputs_of inputs interval)
             [empty_exit_world];
           UpdateExportRunStatus {| run_id := rid; status := "Completed" |}
             tries'])
  /\ (is_Ok (update_outcome env) = true -> (run_workflow inputs env).1 = Ok tt).
Proof.
  intros Hinterval Hcreate Halive Hcount.
  pose proof (run_activity_empty (insert_inputs_of inputs interval)
                (wf_insert env 0%nat) Halive Hcount) as Hrun.
  split; [done|]. split; [done|]. split; [done|]. split; [done|].
  split; [done|].
  rewrite (run_workflow_after_creation interval rid Hinterval Hcreate).
  cbv zeta. cbn [fst snd ws_calls].
  unfold insert_outcome, execute_activity. simpl attempts. rewrite Hrun.
  simpl. split; [by eexists _, _|].
  by destruct (update_outcome env).
Qed.

End Workflow.

(** ** The test scenario *)

Lemma test_environment_rows :
  env_rows test_environment = [Some test_first; Some test_second].
Proof. vm_compute. reflexivity. Qed.

Lemma test_environment_count : env_rows_count test_environment = Ok 2.
Proof. vm_compute. reflexivity. Qed.

Lemma test_environment_queries :
  queries (run_activity (H := test_runtime) test_insert_inputs test_environment).2
  = prelude test_insert_inputs
    ++ map (put_file test_insert_inputs) [0; 1; 2]%nat
    ++ [copy_into test_insert_inputs].
Proof. vm_compute. reflexivity. Qed.

Lemma test_first_writes_line :
  writes_line (H := test_runtime) (Some test_first) (test_line test_first).
Proof.
  eexists test_first, _. split; [reflexivity|].
  split; [vm_compute; reflexivity|reflexivity].
Qed.

Lemma test_second_writes_line :
  writes_line (H := test_runtime) (Some test_second) (test_line test_second).
Proof.
  eexists test_second, _. split; [reflexivity|].
  split; [vm_compute; reflexivity|reflexivity].
Qed.

Lemma test_environment_succeeds : all_succeed test_environment.
Proof. by split. Qed.

(** The resolver on the test's explicit end. *)
Lemma interval_is_hour_before_end_witness :
  get_data_interval_from_workflow_inputs (H := test_runtime)
    (test_export_inputs (Some "2023-04-20 14:40:00.000000")) ∅
  = Ok (Datetime 63817594800000000 None, Datetime 63817598400000000 None).
Proof.
  apply (proj1 (@interval_is_hour_before_end test_runtime
                  (test_export_inputs (Some "2023-04-20 14:40:00.000000")) ∅
                  (Datetime 63817598400000000 None)
                  ltac:(vm_compute; reflexivity) ltac:(by vm_compute))).
Defined.

(** The resolver with neither an explicit end nor a schedule signal. *)
Lemma missing_interval_end_raises_witness :
  get_data_interval_from_workflow_inputs (H := test_runtime)
    (test_export_inputs None) ∅
  = Raise (TypeError missing_search_attribute_message).
Proof.
  apply (proj1 (@missing_interval_end_raises test_runtime
                  (test_export_inputs None) ∅ (or_introl eq_refl) eq_refl)).
  reflexivity.
Defined.

(** C6, as stated, fails on an empty text: it is neither a non-empty
    string nor a timestamp, yet the resolver does not raise its
    [TypeError]: the decoder raises [ValueError]. *)
Lemma empty_schedule_signal_raises_ValueError :
  export_data_interval_end (test_export_inputs None) = None
  /\ empty_schedule_signal !! "TemporalScheduledStartTime" = Some [SAStr ""]
  /\ get_data_interval_from_workflow_inputs (H := test_runtime)
       (test_export_inputs None) empty_schedule_signal
     = Raise (ValueError "Invalid isoformat string")
  /\ ~ exists msg,
         get_data_interval_from_workflow_inputs (H := test_runtime)
           (test_export_inputs None) empty_schedule_signal
         = Raise (TypeError msg).
Proof.
  assert (get_data_interval_from_workflow_inputs (H := test_runtime)
            (test_export_inputs None) empty_schedule_signal
          = Raise (ValueError "Invalid isoformat string")) as Hrun
    by (vm_compute; reflexivity).
  split; [done|]. split; [by vm_compute|]. split; [done|].
  intros [msg Hmsg]. rewrite Hrun in Hmsg. discriminate Hmsg.
Qed.

(** The test's run stages the two events of the team in the hour. *)
Lemma selected_rows_staged_once_witness :
  exists (rows : list row) (lines : list string) (groups : list (list string)),
    (forall r, r ∈ rows <->
       r ∈ test_store
       /\ selected (H := test_runtime) 1 (Datetime 63817594800000000 None)
            (Datetime 63817598400000000 None) r = true)
    /\ rows = filter (fun r => selected (H := test_runtime) 1
                                 (Datetime 63817594800000000 None)
                                 (Datetime 63817598400000000 None) r = true)
                     test_store
    /\ Forall2 (line_of_row (H := test_runtime)) rows lines
    /\ concat groups = lines
    /\ (run_activity (H := test_runtime) test_insert_inputs test_environment).1
       = Ok tt
    /\ w_staged_files
         (run_activity (H := test_runtime) test_insert_inputs test_environment).2
       = map file_content groups.
Proof.
  apply (@selected_rows_staged_once test_runtime test_insert_inputs test_store
           (Datetime 63817594800000000 None) (Datetime 63817598400000000 None)).
  - vm_compute. reflexivity.
  - vm_compute. reflexivity.
  - change (filter _ test_store) with [test_first; test_second].
    repeat constructor.
    + exists (test_line test_first). eexists. split; [vm_compute|]; reflexivity.
    + exists (test_line test_second). eexists. split; [vm_compute|]; reflexivity.
Defined.

(** The statements of the test's run. *)
Lemma statements_in_order_witness :
  exists k tail,
    queries (run_activity (H := test_runtime) test_insert_inputs test_environment).2
    = prelude test_insert_inputs
      ++ map (put_file test_insert_inputs) (seq 0 k) ++ tail
    /\ (tail = [] \/ tail = [copy_into test_insert_inputs])
    /\ copy_into test_insert_inputs = CopyInto "events" "JSON" "CASE_SENSITIVE" true
    /\ (k <= length (w_files (run_activity (H := test_runtime) test_insert_inputs
                                test_environment).2))%nat
    /\ (tail = [copy_into test_insert_inputs] ->
        k = length (w_files (run_activity (H := test_runtime) test_insert_inputs
                               test_environment).2))
    /\ (tail = [copy_into test_insert_inputs]
        <-> length (w_staged_files
                      (run_activity (H := test_runtime) test_insert_inputs
                         test_environment).2)
            = length (w_files (run_activity (H := test_runtime)
                                 test_insert_inputs test_environment).2))
    /\ (is_Ok (run_activity (H := test_runtime) test_insert_inputs
                 test_environment).1 = true ->
        tail = [copy_into test_insert_inputs]).
Proof.
  apply (@statements_in_order test_runtime test_insert_inputs test_environment).
  exists 0%nat. rewrite test_environment_queries.
  do 3 apply list_elem_of_further. apply list_elem_of_here.
Defined.

(** The run against a source that does not answer. *)
Lemma unreachable_source_is_not_retried_witness :
  execute_activity insert_into_snowflake_policy
    (fun _ => run_activity (H := test_runtime) test_insert_inputs
                unreachable_environment)
  = (Raise (ConnectionError "Cannot establish connection to ClickHouse"),
     [unreachable_world]).
Proof.
  apply (@unreachable_source_is_not_retried test_runtime test_insert_inputs
           unreachable_environment (fun _ => unreachable_environment)
           eq_refl eq_refl).
Defined.

(** The run whose iterator yields an empty mapping after the first row:
    only the first row is staged. *)
Lemma falsy_result_ends_the_rows_witness :
  run_activity (H := test_runtime) test_insert_inputs interrupted_environment
  = run_activity (H := test_runtime) test_insert_inputs
      (stop_after interrupted_environment [Some test_first])
  /\ exists groups,
       concat groups = [test_line test_first]
       /\ run_activity (H := test_runtime) test_insert_inputs
            interrupted_environment
          = (Ok tt, loaded_world test_insert_inputs groups)
       /\ w_staged_files
            (run_activity (H := test_runtime) test_insert_inputs
               interrupted_environment).2
          = map file_content groups
       /\ queries
            (run_activity (H := test_runtime) test_insert_inputs
               interrupted_environment).2
          = prelude test_insert_inputs
            ++ map (put_file test_insert_inputs) (seq 0 (length groups))
            ++ [copy_into test_insert_inputs].
Proof.
  destruct (@falsy_result_ends_the_rows test_runtime test_insert_inputs
              interrupted_environment (Some []) [Some test_first]
              [Some test_second] 2 [test_line test_first] eq_refl eq_refl)
    as [Hstop Hstaged].
  split; [exact Hstop|].
  apply Hstaged; [reflexivity|reflexivity|discriminate|by split|].
  constructor; [apply test_first_writes_line|constructor].
Defined.

(** The workflow of the test: one status update, Completed. *)
Lemma status_updated_once_after_creation_witness :
  exists reported calls tries,
    status_updates
      (run_workflow (H := test_runtime)
         (test_export_inputs (Some "2023-04-20 14:40:00.000000"))
         (test_workflow_environment test_store)).2 = [reported]
    /\ ws_calls
         (run_workflow (H := test_runtime)
            (test_export_inputs (Some "2023-04-20 14:40:00.000000"))
            (test_workflow_environment test_store)).2
       = calls ++ [UpdateExportRunStatus reported tries]
    /\ run_id reported = "run-1"
    /\ (status reported = "Completed"
        <-> is_Ok (insert_outcome (H := test_runtime)
                     (test_workflow_environment test_store)
                     (insert_inputs_of (H := test_runtime)
                        (test_export_inputs (Some "2023-04-20 14:40:00.000000"))
                        (Datetime 63817594800000000 None,
                         Datetime 63817598400000000 None))) = true)
    /\ (status reported = "Failed"
        <-> is_Ok (insert_outcome (H := test_runtime)
                     (test_workflow_environment test_store)
                     (insert_inputs_of (H := test_runtime)
                        (test_export_inputs (Some "2023-04-20 14:40:00.000000"))
                        (Datetime 63817594800000000 None,
                         Datetime 63817598400000000 None))) = false)
    /\ (is_Ok (update_outcome (test_workflow_environment test_store)) = true ->
        (run_workflow (H := test_runtime)
           (test_export_inputs (Some "2023-04-20 14:40:00.000000"))
           (test_workflow_environment test_store)).1
        = insert_outcome (H := test_runtime)
            (test_workflow_environment test_store)
            (insert_inputs_of (H := test_runtime)
               (test_export_inputs (Some "2023-04-20 14:40:00.000000"))
               (Datetime 63817594800000000 None,
                Datetime 63817598400000000 None))).
Proof.
  apply (@status_updated_once_after_creation test_runtime
           (test_export_inputs (Some "2023-04-20 14:40:00.000000"))
           (test_workflow_environment test_store)
           (Datetime 63817594800000000 None, Datetime 63817598400000000 None)
           "run-1").
  - vm_compute. reflexivity.
  - reflexivity.
Defined.

(** C2, as stated, fails when the run-creation step itself raises: the
    workflow reached that step and scheduled [create_export_run], and no
    status update follows. *)
Lemma no_status_update_when_creation_fails :
  ws_calls
    (run_workflow (H := test_runtime)
       (test_export_inputs (Some "2023-04-20 14:40:00.000000"))
       failing_creation_environment).2
  = [CreateExportRun
       {| create_team_id := 1; create_batch_export_id := "batch-export";
          create_data_interval_start := "2023-04-20T13:40:00";
          create_data_interval_end := "2023-04-20T14:40:00" |} 1]
  /\ status_updates
       (run_workflow (H := test_runtime)
          (test_export_inputs (Some "2023-04-20 14:40:00.000000"))
          failing_creation_environment).2 = []
  /\ (run_workflow (H := test_runtime)
        (test_export_inputs (Some "2023-04-20 14:40:00.000000"))
        failing_creation_environment).1
     = Raise (Exn "IntegrityError" "duplicate key").
Proof. vm_compute. repeat split. Qed.

(** With the chunk size of the test every row fills a file of its own, and
    a third, empty file is staged after the two rows. *)
Lemma every_file_staged_and_one_more_witness :
  w_staged_files
    (run_activity (H := test_runtime) test_insert_inputs test_environment).2
  = [test_line test_first; test_line test_second; ""]
  /\ length (staging_calls
               (queries (run_activity (H := test_runtime) test_insert_inputs
                           test_environment).2)) = 3%nat.
Proof.
  destruct (@every_file_staged_and_one_more test_runtime test_insert_inputs
              test_environment 2 [test_line test_first; test_line test_second]
              eq_refl test_environment_count ltac:(discriminate)
              test_environment_succeeds eq_refl)
    as (sealed & rest & _ & _ & _ & _ & _ & Hrows).
  - rewrite test_environment_rows.
    constructor; [apply test_first_writes_line|].
    constructor; [apply test_second_writes_line|constructor].
  - apply Hrows. repeat constructor.
Defined.

(** C4, as stated, fails on the test's scenario: the chunk size of one
    byte puts each of the two rows in a file of its own, and three PUTs are
    sent before the COPY INTO, not two. *)
Lemma three_staging_calls_for_two_rows :
  length (env_rows test_environment) = 2%nat
  /\ Forall (fun l => 1 < Z.of_nat (String.length l))
            [test_line test_first; test_line test_second]
  /\ queries (run_activity (H := test_runtime) test_insert_inputs
                test_environment).2
     = prelude test_insert_inputs
       ++ map (put_file test_insert_inputs) [0; 1; 2]%nat
       ++ [copy_into test_insert_inputs]
  /\ length (staging_calls
               (queries (run_activity (H := test_runtime) test_insert_inputs
                           test_environment).2))
     <> length (env_rows test_environment).
Proof.
  split; [by rewrite test_environment_rows|].
  split; [repeat constructor|].
  split; [apply test_environment_queries|].
  rewrite test_environment_queries, test_environment_rows. vm_compute. lia.
Qed.

(** The workflow of the test over an hour without events. *)
Lemma empty_interval_completes_untouched_witness :
  run_activity (H := test_runtime)
    (insert_inputs_of (H := test_runtime)
       (test_export_inputs (Some "2023-03-20 14:40:00.000000"))
       (Datetime 63814916400000000 None, Datetime 63814920000000000 None))
    (wf_insert (test_workflow_environment []) 0%nat)
  = (Ok tt, empty_exit_world)
  /\ queries empty_exit_world = []
  /\ w_conn empty_exit_world = NoConnection
  /\ w_files empty_exit_world = []
  /\ w_staged_files empty_exit_world = []
  /\ (exists tries tries',
        ws_calls
          (run_workflow (H := test_runtime)
             (test_export_inputs (Some "2023-03-20 14:40:00.000000"))
             (test_workflow_environment [])).2
        = [CreateExportRun
             (create_inputs_of (H := test_runtime)
                (test_export_inputs (Some "2023-03-20 14:40:00.000000"))
                (Datetime 63814916400000000 None,
                 Datetime 63814920000000000 None)) tries;
           InsertIntoSnowflake
             (insert_inputs_of (H := test_runtime)
                (test_export_inputs (Some "2023-03-20 14:40:00.000000"))
                (Datetime 63814916400000000 None,
                 Datetime 63814920000000000 None))
             [empty_exit_world];
           UpdateExportRunStatus {| run_id := "run-1"; status := "Completed" |}
             tries'])
  /\ (is_Ok (update_outcome (test_workflow_environment [])) = true ->
      (run_workflow (H := test_runtime)
         (test_export_inputs (Some "2023-03-20 14:40:00.000000"))
         (test_workflow_environment [])).1 = Ok tt).
Proof.
  apply (@empty_interval_completes_untouched test_runtime
           (test_export_inputs (Some "2023-03-20 14:40:00.000000"))
           (test_workflow_environment [])
           (Datetime 63814916400000000 None, Datetime 63814920000000000 None)
           "run-1").
  - vm_compute. reflexivity.
  - reflexivity.
  - reflexivity.
  - vm_compute. reflexivity.
Defined.

(** C5, as stated, fails on an hour without events: the count is zero
    and the run returns before it connects to Snowflake, so the table is
    not created: no statement is sent at all. *)
Lemma no_table_created_for_empty_interval :
  env_rows_count (wf_insert (test_workflow_environment []) 0%nat) = Ok 0
  /\ (run_activity (H := test_runtime) test_insert_inputs
        (wf_insert (test_workflow_environment []) 0%nat)).1 = Ok tt
  /\ queries (run_activity (H := test_runtime) test_insert_inputs
                (wf_insert (test_workflow_environment []) 0%nat)).2 = []
  /\ create_table test_insert_inputs
     ∉ queries (run_activity (H := test_runtime) test_insert_inputs
                  (wf_insert (test_workflow_environment []) 0%nat)).2.
Proof.
  assert (queries (run_activity (H := test_runtime) test_insert_inputs
                     (wf_insert (test_workflow_environment []) 0%nat)).2 = [])
    as Hq by (vm_compute; reflexivity).
  split; [by vm_compute|]. split; [by vm_compute|]. split; [done|].
  rewrite Hq. apply not_elem_of_nil.
Qed.

(** A run in which the second PUT is refused: the exception leaves the
    activity, no COPY INTO is sent, both temporary files are closed and so is
    the connection. *)
Example refused_put_run :
  (run_activity (H := test_runtime) test_insert_inputs failing_put_environment).1
  = Raise (Exn "ProgrammingError" "stage is not available")
  /\ queries (run_activity (H := test_runtime) test_insert_inputs
                failing_put_environment).2
     = prelude test_insert_inputs
       ++ map (put_file test_insert_inputs) [0; 1]%nat
  /\ w_staged_files (run_activity (H := test_runtime) test_insert_inputs
                       failing_put_environment).2
     = [test_line test_first]
  /\ map f_closed (w_files (run_activity (H := test_runtime) test_insert_inputs
                              failing_put_environment).2)
     = [true; true]
  /\ w_conn (run_activity (H := test_runtime) test_insert_inputs
               failing_put_environment).2 = ConnClosed.
Proof. vm_compute. repeat split. Qed.

(** * Further properties *)

(** ** The test's check of the order of the queries *)

Section QueriesInOrder.
Variable re_match : string -> string -> bool.

Lemma contains_queries_in_order_sound (queries : list string) :
  forall queries_to_find,
    contains_queries_in_order re_match queries queries_to_find = true ->
    exists found,
      found `sublist_of` queries
      /\ Forall2 (fun p q => re_match p q = true) queries_to_find found.
Proof.
  induction queries as [|q queries IH]; intros [|p ps] Hrun; simpl in Hrun.
  - by exists [].
  - done.
  - exists []. split; [apply sublist_nil_l|constructor].
  - destruct (re_match p q) eqn:Hpq.
    + destruct (IH ps Hrun) as (found & Hsub & Hall).
      exists (q :: found). split; [by apply sublist_skip|by constructor].
    + destruct (IH (p :: ps) Hrun) as (found & Hsub & Hall).
      exists found. split; [by apply sublist_cons|done].
Qed.

Lemma contains_queries_in_order_complete (queries : list string) :
  forall queries_to_find found,
    found `sublist_of` queries ->
    Forall2 (fun p q => re_match p q = true) queries_to_find found ->
    contains_queries_in_order re_match queries queries_to_find = true.
Proof.
  induction queries as [|q queries IH]; intros ps found Hsub Hall.
  - apply sublist_nil_r in Hsub as ->.
    apply Forall2_nil_inv_r in Hall as ->. done.
  - destruct ps as [|p ps]; [done|].
    destruct found as [|f found]; [by apply Forall2_nil_inv_r in Hall|].
    apply Forall2_cons in Hall as [Hpf Hall].
    simpl. apply sublist_cons_r in Hsub as [Hsub|(found' & [= -> ->] & Hsub)].
    + destruct (re_match p q).
      * apply (IH ps found); [|done].
        apply sublist_cons_l in Hsub as (k1 & k2 & -> & Hsub).
        by apply sublist_inserts_l, sublist_cons.
      * apply (IH (p :: ps) (f :: found)); [done|by constructor].
    + rewrite Hpf. by apply (IH ps found').
Qed.

(** X1: the check passes exactly when the patterns can be matched, in
    their order, by queries taken from the list in its order (the queries
    need not be adjacent): taking the first query that matches each pattern
    loses nothing. *)
Theorem contains_queries_in_order_iff (queries queries_to_find : list string) :
  contains_queries_in_order re_match queries queries_to_find = true
  <-> exists found,
        found `sublist_of` queries
        /\ Forall2 (fun p q => re_match p q = true) queries_to_find found.
Proof.
  split.
  - apply contains_queries_in_order_sound.
  - intros (found & Hsub & Hall).
    by apply (contains_queries_in_order_complete queries queries_to_find found).
Qed.

(** X2: a check that passes still passes when further queries are
    recorded anywhere in the list, and a check with nothing to find passes
    on every list. *)
Theorem contains_queries_in_order_more_queries
    (queries queries' queries_to_find : list string) :
  queries `sublist_of` queries' ->
  contains_queries_in_order re_match queries queries_to_find = true ->
  contains_queries_in_order re_match queries' queries_to_find = true
  /\ contains_queries_in_order re_match queries' [] = true.
Proof.
  intros Hsub Hrun. split.
  - apply contains_queries_in_order_sound in Hrun as (found & Hfound & Hall).
    apply (contains_queries_in_order_complete queries' queries_to_find found);
      [by etrans|done].
  - by destruct queries'.
Qed.

End QueriesInOrder.

(** ** Reading the staged data back *)

Lemma split_on_separator (c : ascii) (x rest : string) :
  free_of c x ->
  split_on c (x +:+ String c rest) = x :: split_on c rest.
Proof.
  induction x as [|a x IH]; intros Hfree.
  - rewrite string_app_nil_l. simpl. by rewrite bool_decide_eq_true_2.
  - destruct Hfree as [Hne Hfree]. rewrite string_app_cons. simpl.
    rewrite bool_decide_eq_false_2 by done. by rewrite IH.
Qed.

Lemma split_on_file_of_texts (texts : list string) (rest : string) :
  Forall (free_of "010") texts ->
  split_on "010" (file_of_texts texts +:+ rest)
  = texts ++ split_on "010" rest.
Proof.
  induction 1 as [|t texts Ht _ IH]; [done|].
  unfold file_of_texts in *. simpl.
  rewrite !string_app_assoc. unfold newline. rewrite string_app_cons.
  rewrite string_app_nil_l, split_on_separator by done.
  f_equal. exact IH.
Qed.

Lemma filter_nonempty_texts (texts : list string) :
  Forall (fun t => free_of "010" t /\ t <> "") texts ->
  filter (fun line => line <> "") texts = texts.
Proof.
  induction 1 as [|t texts [_ Ht] _ IH]; [done|].
  rewrite filter_cons_True by done. by rewrite IH.
Qed.

Lemma staged_data_lines_texts (groups : list (list string)) :
  Forall (Forall (fun t => free_of "010" t /\ t <> "")) groups ->
  staged_data_lines (map file_of_texts groups) = concat groups.
Proof.
  unfold staged_data_lines.
  induction 1 as [|g groups Hg Hgroups IH]; [done|].
  assert (Forall (free_of "010") g) as Hfree.
  { eapply Forall_impl; [exact Hg|]. by intros t [? _]. }
  destruct groups as [|g' groups].
  - simpl. rewrite <- (string_app_nil_r (file_of_texts g)).
    rewrite split_on_file_of_texts by done. simpl.
    rewrite filter_app, filter_nonempty_texts by done.
    rewrite filter_cons_False by (by intros []). by rewrite filter_nil.
  - change (join_with newline (map file_of_texts (g :: g' :: groups)))
      with (file_of_texts g +:+ newline
            +:+ join_with newline (map file_of_texts (g' :: groups))).
    rewrite split_on_file_of_texts by done.
    unfold newline at 1. rewrite string_app_cons, string_app_nil_l.
    cbn [split_on]. rewrite bool_decide_eq_true_2 by done.
    rewrite filter_app, filter_nonempty_texts by done.
    rewrite filter_cons_False by (by intros []).
    by rewrite IH.
Qed.

(** X3: however the rows were divided over the staged files, and whether
    or not a file is empty, joining the files with newlines, splitting at
    the newlines and dropping the empty pieces gives back the JSON texts of
    the rows, each once and in order; decoding them gives back the rows. *)
Theorem staged_data_read_back `{Runtime} (groups : list (list string))
    (values : list json) :
  Forall (Forall (fun t => free_of "010" t /\ t <> "")) groups ->
  Forall2 (fun t v => json_loads t = Some v) (concat groups) values ->
  staged_data_lines (map file_of_texts groups) = concat groups
  /\ read_staged_data (map file_of_texts groups) = Some values.
Proof.
  intros Hgroups Hvalues.
  pose proof (staged_data_lines_texts groups Hgroups) as Hlines.
  split; [done|].
  unfold read_staged_data. rewrite Hlines. by apply mapM_Some.
Qed.

(** ** The sizes of the staged files *)

Lemma string_app_length (s1 s2 : string) :
  String.length (s1 +:+ s2) = (String.length s1 + String.length s2)%nat.
Proof.
  induction s1 as [|c s1 IH]; [done|].
  rewrite string_app_cons. simpl. by rewrite IH.
Qed.

Lemma file_content_app (lines1 lines2 : list string) :
  file_content (lines1 ++ lines2) = file_content lines1 +:+ file_content lines2.
Proof.
  induction lines1 as [|l lines1 IH]; [done|].
  simpl. by rewrite IH, string_app_assoc.
Qed.

Lemma content_size_app (lines1 lines2 : list string) :
  content_size (lines1 ++ lines2) = content_size lines1 + content_size lines2.
Proof.
  unfold content_size. rewrite file_content_app, string_app_length. lia.
Qed.

Lemma content_size_nonneg (lines : list string) : 0 <= content_size lines.
Proof. unfold content_size. lia. Qed.

Lemma chunk_lines_just_exceed (T : Z) (lines : list string) : forall cur,
  content_size cur = 0 \/ content_size cur <= T ->
  Forall (just_exceeds T) (chunk_lines T cur lines).1
  /\ (content_size (chunk_lines T cur lines).2 = 0
      \/ content_size (chunk_lines T cur lines).2 <= T).
Proof.
  induction lines as [|l lines IH]; intros cur Hcur; simpl.
  - split; [constructor|done].
  - fold (content_size (cur ++ [l])).
    pose proof (content_size_nonneg (cur ++ [l])) as Hpos.
    destruct (Z.eqb_spec (content_size (cur ++ [l])) 0) as [Hzero|Hnz]; simpl.
    + apply IH. by left.
    + destruct (Z.gtb_spec (content_size (cur ++ [l])) T) as [Hgt|Hle].
      * destruct (IH []) as [Hsealed Hrest]; [by left|].
        destruct (chunk_lines T [] lines) as [sealed rest]. simpl in *.
        split; [|done]. constructor; [|done].
        exists cur, l. repeat split; [lia|lia|done].
      * apply IH. by right.
Qed.

Lemma chunk_lines_below (T : Z) (lines : list string) : forall cur,
  content_size (cur ++ lines) <= T ->
  chunk_lines T cur lines = ([], cur ++ lines).
Proof.
  induction lines as [|l lines IH]; intros cur Hsize; simpl.
  - by rewrite app_nil_r.
  - fold (content_size (cur ++ [l])).
    assert (content_size (cur ++ [l]) <= T) as Hle.
    { change (l :: lines) with ([l] ++ lines) in Hsize.
      rewrite app_assoc, content_size_app in Hsize.
      pose proof (content_size_nonneg lines). lia. }
    destruct (Z.gtb_spec (content_size (cur ++ [l])) T) as [Hgt|_]; [lia|].
    rewrite andb_false_r, IH; [by rewrite <- app_assoc|].
    by rewrite <- app_assoc.
Qed.

Section Chunks.
Context `{Runtime}.
Variable inputs : SnowflakeInsertInputs.
Variable env : environment.

#[local] Abbreviation T := BATCH_EXPORT_SNOWFLAKE_UPLOAD_CHUNK_SIZE_BYTES.

(** X4: when nothing fails, every file staged inside the loop is
    non-empty, exceeds the chunk size and did not exceed it before its last
    line was written; only the file staged after the loop may be empty, and
    it does not exceed the chunk size. *)
Theorem sealed_files_just_exceed_chunk_size (count : Z) (lines : list string) :
  env_is_alive env = true ->
  env_rows_count env = Ok count ->
  count <> 0 ->
  all_succeed env ->
  env_rows_end env = None ->
  Forall2 writes_line (env_rows env) lines ->
  exists sealed rest,
    run_activity inputs env = (Ok tt, loaded_world inputs (sealed ++ [rest]))
    /\ w_staged_files (run_activity inputs env).2
       = map file_content sealed ++ [file_content rest]
    /\ concat sealed ++ rest = lines
    /\ Forall (just_exceeds T) sealed
    /\ (content_size rest = 0 \/ content_size rest <= T).
Proof.
  intros Halive Hcount Hnz Hok Hend Hlines.
  pose proof (run_activity_success inputs env count lines Halive Hcount Hnz
                Hok Hend Hlines) as Hrun.
  pose proof (chunk_lines_concat lines []) as Hconcat.
  destruct (chunk_lines_just_exceed T lines []) as [Hsealed Hrest]; [by left|].
  destruct (chunk_lines T [] lines) as [sealed rest]. simpl in *.
  exists sealed, rest. rewrite Hrun. simpl.
  split; [done|]. split; [by rewrite map_app|].
  split; [|done].
  rewrite concat_app in Hconcat. simpl in Hconcat.
  by rewrite app_nil_r in Hconcat.
Qed.

(** X5: when nothing fails and all the lines together do not exceed the
    chunk size, nothing is staged inside the loop: the run sends one PUT,
    for one file that holds every line. *)
Theorem small_export_is_one_file (count : Z) (lines : list string) :
  env_is_alive env = true ->
  env_rows_count env = Ok count ->
  count <> 0 ->
  all_succeed env ->
  env_rows_end env = None ->
  Forall2 writes_line (env_rows env) lines ->
  content_size lines <= T ->
  run_activity inputs env = (Ok tt, loaded_world inputs [lines])
  /\ w_staged_files (run_activity inputs env).2 = [file_content lines]
  /\ queries (run_activity inputs env).2
     = prelude inputs ++ [put_file inputs 0; copy_into inputs].
Proof.
  intros Halive Hcount Hnz Hok Hend Hlines Hsize.
  pose proof (run_activity_success inputs env count lines Halive Hcount Hnz
                Hok Hend Hlines) as Hrun.
  rewrite (chunk_lines_below T lines []) in Hrun by done.
  simpl in Hrun. rewrite Hrun. cbn [snd].
  split; [done|]. split; [done|]. by rewrite queries_loaded_world.
Qed.

End Chunks.

(** ** The order of all that a run does *)

Section Traces.
Context `{Runtime}.
Variable inputs : SnowflakeInsertInputs.
Variable env : environment.

Lemma run_activity_trace_cases :
  let '(r, w) := run_activity inputs env in
  (env_is_alive env = false
   /\ w_trace w = [ClientOpen; IsAlive; ClientClose])
  \/ (env_is_alive env = true
      /\ (env_rows_count env = Ok 0
          \/ (exists e, env_rows_count env = Raise e)
          \/ (exists e, env_connect env = Some e))
      /\ w_trace w = [ClientOpen; IsAlive; RowsCount; ClientClose])
  \/ (env_is_alive env = true
      /\ (exists c, env_rows_count env = Ok c /\ c <> 0)
      /\ env_connect env = None
      /\ exists qs,
           w_trace w
           = [ClientOpen; IsAlive; RowsCount; Connect]
             ++ map Execute qs ++ [ConnClose; ClientClose]
           /\ queries w = qs).
Proof.
  unfold run_activity, insert_into_snowflake_activity.
  rewrite bind_eq.
  change (emit ClientOpen initial_world)
    with (Ok tt, World [ClientOpen] [] [] 0%nat NoConnection).
  unfold try_finally at 1, export_rows.
  rewrite bind_eq.
  change (client_is_alive env (World [ClientOpen] [] [] 0%nat NoConnection))
    with (Ok (env_is_alive env), World [ClientOpen; IsAlive] [] [] 0%nat NoConnection).
  destruct (env_is_alive env); cbn [negb]; [|by left].
  rewrite bind_eq.
  change (get_rows_count env (World [ClientOpen; IsAlive] [] [] 0%nat NoConnection))
    with (env_rows_count env,
          World [ClientOpen; IsAlive; RowsCount] [] [] 0%nat NoConnection).
  destruct (env_rows_count env) as [count|e].
  2:{ right. left. split; [done|]. split; [|done]. right. left. by exists e. }
  destruct (Z.eqb_spec count 0) as [->|Hnz].
  { right. left. split; [done|]. split; [|done]. by left. }
  rewrite bind_eq. unfold snowflake_connect.
  destruct (env_connect env) as [e|].
  { right. left. split; [done|]. split; [|done]. right. right. by exists e. }
  change ((emit Connect;; set_conn ConnOpen)
            (World [ClientOpen; IsAlive; RowsCount] [] [] 0%nat NoConnection))
    with (Ok tt, World [ClientOpen; IsAlive; RowsCount; Connect] [] [] 0%nat ConnOpen).
  unfold try_finally at 1.
  rewrite bind_eq, cursor_execute_other by done. simpl length.
  destruct (env_execute env 0) as [e|].
  { right. right. split; [done|]. split; [by exists count|]. split; [done|].
    by exists [UseDatabase (database inputs)]. }
  rewrite bind_eq, cursor_execute_other by done. simpl length.
  destruct (env_execute env 1) as [e|].
  { right. right. split; [done|]. split; [by exists count|]. split; [done|].
    by exists [UseDatabase (database inputs); UseSchema (schema inputs)]. }
  rewrite bind_eq, cursor_execute_other by done. simpl length.
  destruct (env_execute env 2) as [e|].
  { right. right. split; [done|]. split; [by exists count|]. split; [done|].
    by exists (prelude inputs). }
  destruct (stage_and_load_shape inputs env
              ((([ClientOpen; IsAlive; RowsCount; Connect]
                 ++ [Execute (UseDatabase (database inputs))])
                ++ [Execute (UseSchema (schema inputs))])
               ++ [Execute (create_table inputs)]) ConnOpen)
    as (r & st' & fs' & f & k & tail & Heq & _).
  rewrite Heq. simpl.
  right. right. split; [done|]. split; [by exists count|]. split; [done|].
  exists (prelude inputs ++ map (put_file inputs) (seq 0 k) ++ tail).
  unfold queries. simpl.
  rewrite !map_app, !omap_app, omap_statement_of_put, omap_statement_of_execute.
  simpl. rewrite <- !app_assoc, map_map. simpl. by rewrite !app_nil_r.
Qed.

(** X6: every run opens the source client, asks whether the source is
    alive, and closes the client last.  It counts the rows only when the
    source is alive, connects to Snowflake only when the count is not zero,
    sends every statement between connecting and closing the connection,
    and closes the connection exactly once when it was made. *)
Theorem run_activity_trace :
  (env_is_alive env = false
   /\ w_trace (run_activity inputs env).2 = [ClientOpen; IsAlive; ClientClose])
  \/ (env_is_alive env = true
      /\ (env_rows_count env = Ok 0
          \/ (exists e, env_rows_count env = Raise e)
          \/ (exists e, env_connect env = Some e))
      /\ w_trace (run_activity inputs env).2
         = [ClientOpen; IsAlive; RowsCount; ClientClose])
  \/ (env_is_alive env = true
      /\ (exists c, env_rows_count env = Ok c /\ c <> 0)
      /\ env_connect env = None
      /\ exists qs,
           w_trace (run_activity inputs env).2
           = [ClientOpen; IsAlive; RowsCount; Connect]
             ++ map Execute qs ++ [ConnClose; ClientClose]
           /\ queries (run_activity inputs env).2 = qs).
Proof.
  pose proof run_activity_trace_cases as Hcases.
  destruct (run_activity inputs env) as [r w]. exact Hcases.
Qed.

(** X7: an exception of the count, or of the connection to Snowflake,
    leaves the activity as it is: no statement was sent, no file was made,
    and there is no connection to close. *)
Theorem failure_before_connection (e : exn) :
  env_is_alive env = true ->
  env_rows_count env = Raise e
  \/ ((exists c, env_rows_count env = Ok c /\ c <> 0)
      /\ env_connect env = Some e) ->
  run_activity inputs env
  = (Raise e,
     World [ClientOpen; IsAlive; RowsCount; ClientClose] [] [] 0 NoConnection).
Proof.
  intros Halive Hfail.
  unfold run_activity, insert_into_snowflake_activity, export_rows,
    client_is_alive, get_rows_count, snowflake_connect,
    try_finally, bind, emit, modify, ret, lift.
  simpl. rewrite Halive. simpl.
  destruct Hfail as [Hcount|[(c & Hcount & Hnz) Hconn]]; rewrite Hcount; [done|].
  destruct (Z.eqb_spec c 0) as [|_]; [done|].
  by rewrite Hconn.
Qed.

End Traces.

(** ** A loop that ends with an exception *)

Section Interrupted.
Context `{Runtime}.
Variable inputs : SnowflakeInsertInputs.
Variable env : environment.

#[local] Abbreviation T := BATCH_EXPORT_SNOWFLAKE_UPLOAD_CHUNK_SIZE_BYTES.

(** The loop over rows that are written without failure, then over
    [more]. *)
Lemma staging_loop_through (c : conn_state) (items more : list item)
    (lines : list string) :
  (forall n, env_execute env n = None) ->
  Forall2 writes_line items lines ->
  forall tr st fs cur,
    staging_loop inputs env (items ++ more)
      (open_world tr st fs "" (file_content cur) c)
    = staging_loop inputs env more
        (open_world
           (tr ++ map (fun i => Execute (put_file inputs i))
                      (seq (length fs) (length (chunk_lines T cur lines).1)))
           (st ++ map file_content (chunk_lines T cur lines).1)
           (fs ++ map sealed_file (chunk_lines T cur lines).1)
           "" (file_content (chunk_lines T cur lines).2) c).
Proof.
  intros Hexec Hlines.
  induction Hlines as [|it l items lines (res & r & Hit & Hrow & ->) _ IH];
    intros tr st fs cur.
  - simpl. by rewrite !app_nil_r.
  - rewrite <- app_comm_cons.
    rewrite (staging_loop_step _ _ _ _ _ _ _ _ _ _ _ _ Hit Hrow). cbv zeta.
    rewrite Hexec, string_app_nil_l, <- file_content_snoc.
    simpl chunk_lines. simpl String.length at 1. simpl Nat.add.
    destruct (negb _ && _).
    + change "" with (file_content []) at 3. rewrite IH.
      destruct (chunk_lines T [] lines) as [sealed rest]. simpl.
      rewrite length_app, <- !app_assoc. simpl. by rewrite Nat.add_1_r.
    + apply IH.
Qed.

(** The run when the loop raises after rows that were written without
    failure. *)
Lemma run_activity_loop_raises (count : Z) (items more : list item)
    (lines : list string) (e : exn) :
  env_is_alive env = true ->
  env_rows_count env = Ok count ->
  count <> 0 ->
  all_succeed env ->
  env_rows env = items ++ more ->
  Forall2 writes_line items lines ->
  (forall w, staging_loop inputs env more w = (Raise e, w)) ->
  run_activity inputs env
  = (Raise e,
     World ([ClientOpen; IsAlive; RowsCount; Connect]
            ++ map Execute
                 (prelude inputs
                  ++ map (put_file inputs)
                       (seq 0 (length (chunk_lines T [] lines).1)))
            ++ [ConnClose; ClientClose])
           (map file_content (chunk_lines T [] lines).1)
           (map sealed_file
              ((chunk_lines T [] lines).1 ++ [(chunk_lines T [] lines).2]))
           (length (chunk_lines T [] lines).1) ConnClosed).
Proof.
  intros Halive Hcount Hnz [Hconn Hexec] Hrows Hlines Hmore.
  unfold run_activity, insert_into_snowflake_activity.
  rewrite bind_eq.
  change (emit ClientOpen initial_world)
    with (Ok tt, World [ClientOpen] [] [] 0%nat NoConnection).
  unfold try_finally at 1, export_rows.
  rewrite bind_eq.
  change (client_is_alive env (World [ClientOpen] [] [] 0%nat NoConnection))
    with (Ok (env_is_alive env), World [ClientOpen; IsAlive] [] [] 0%nat NoConnection).
  rewrite Halive. cbn [negb].
  rewrite bind_eq.
  change (get_rows_count env (World [ClientOpen; IsAlive] [] [] 0%nat NoConnection))
    with (env_rows_count env,
          World [ClientOpen; IsAlive; RowsCount] [] [] 0%nat NoConnection).
  rewrite Hcount.
  destruct (Z.eqb_spec count 0) as [|_]; [done|].
  rewrite bind_eq. unfold snowflake_connect. rewrite Hconn.
  change ((emit Connect;; set_conn ConnOpen)
            (World [ClientOpen; IsAlive; RowsCount] [] [] 0%nat NoConnection))
    with (Ok tt, World [ClientOpen; IsAlive; RowsCount; Connect] [] [] 0%nat ConnOpen).
  unfold try_finally at 1.
  rewrite bind_eq, cursor_execute_other, Hexec by done.
  rewrite bind_eq, cursor_execute_other, Hexec by done.
  rewrite bind_eq, cursor_execute_other, Hexec by done.
  unfold stage_and_load. rewrite bind_eq.
  match goal with
  | |- context [named_temporary_file (World ?tr [] [] 0%nat ConnOpen)] =>
      change (named_temporary_file (World tr [] [] 0%nat ConnOpen))
        with (Ok tt, open_world tr [] [] "" (file_content []) ConnOpen)
  end.
  unfold try_finally. rewrite bind_eq, Hrows.
  rewrite (staging_loop_through ConnOpen items more lines Hexec Hlines), Hmore.
  destruct (chunk_lines T [] lines) as [sealed rest]. cbn [fst snd].
  rewrite file_close_open, string_app_nil_l.
  unfold conn_close, prelude, sealed_file. simpl.
  rewrite !map_app, !length_map, <- !app_assoc. simpl.
  by rewrite map_map.
Qed.

(** X8: when nothing else fails and the properties of a row cannot be
    decoded, the run raises the decoder's exception at that row.  Only the
    files sealed before it are staged: the lines still in the current file
    are lost with it, the row and the rows after it are not written, and no
    COPY INTO is sent. *)
Theorem undecodable_row_aborts_the_run (count : Z) (items post : list item)
    (bad : item) (res : row) (lines : list string) (e : exn) :
  env_is_alive env = true ->
  env_rows_count env = Ok count ->
  count <> 0 ->
  all_succeed env ->
  env_rows env = items ++ bad :: post ->
  Forall2 writes_line items lines ->
  truthy bad = Some res ->
  staged_row res = Raise e ->
  exists sealed rest,
    chunk_lines T [] lines = (sealed, rest)
    /\ (run_activity inputs env).1 = Raise e
    /\ queries (run_activity inputs env).2
       = prelude inputs ++ map (put_file inputs) (seq 0 (length sealed))
    /\ w_staged_files (run_activity inputs env).2 = map file_content sealed
    /\ copy_into inputs ∉ queries (run_activity inputs env).2.
Proof.
  intros Halive Hcount Hnz Hok Hrows Hlines Hbad Hrow.
  rewrite (run_activity_loop_raises count items (bad :: post) lines e Halive
             Hcount Hnz Hok Hrows Hlines)
    by (intros w; by apply (staging_loop_undecodable _ _ _ res)).
  destruct (chunk_lines T [] lines) as [sealed rest]. cbn [fst snd].
  exists sealed, rest. split; [done|]. split; [done|].
  assert (queries
            (World ([ClientOpen; IsAlive; RowsCount; Connect]
                    ++ map Execute
                         (prelude inputs
                          ++ map (put_file inputs) (seq 0 (length sealed)))
                    ++ [ConnClose; ClientClose])
                   (map file_content sealed)
                   (map sealed_file (sealed ++ [rest]))
                   (length sealed) ConnClosed)
          = prelude inputs ++ map (put_file inputs) (seq 0 (length sealed)))
    as Hq.
  { unfold queries. cbn [w_trace].
    rewrite !omap_app, omap_statement_of_execute. simpl.
    by rewrite app_nil_r. }
  rewrite Hq. split; [done|]. split; [done|].
  unfold prelude, copy_into, create_table, put_file.
  intros Hin. apply elem_of_app in Hin as [Hin|Hin].
  - repeat (apply elem_of_cons in Hin as [Hin|Hin]; [discriminate Hin|]).
    by apply elem_of_nil in Hin.
  - apply list_elem_of_fmap in Hin as (i & Hi & _). discriminate Hi.
Qed.


End Interrupted.

(** ** The row that is written *)

Lemma dict_get_set (d : row) (k : string) (v : json) :
  dict_get (dict_set d k v) k = Some v.
Proof.
  induction d as [|[k' v'] d IH]; simpl.
  - by rewrite decide_True.
  - destruct (decide (k = k')) as [->|Hne]; simpl.
    + by rewrite decide_True.
    + by rewrite decide_False.
Qed.

Lemma dict_get_set_other (d : row) (k k' : string) (v : json) :
  k' <> k -> dict_get (dict_set d k v) k' = dict_get d k'.
Proof.
  intros Hne. induction d as [|[k0 v0] d IH]; simpl.
  - by rewrite decide_False.
  - destruct (decide (k = k0)) as [->|Hk]; simpl.
    + by rewrite !decide_False.
    + destruct (decide (k' = k0)); [done|exact IH].
Qed.

Lemma dict_set_keys (d : row) (k : string) (v : json) :
  map fst (dict_set d k v)
  = match dict_get d k with
    | Some _ => map fst d
    | None => map fst d ++ [k]
    end.
Proof.
  induction d as [|[k' v'] d IH]; simpl; [done|].
  destruct (decide (k = k')) as [->|Hne]; simpl; [done|].
  rewrite IH. by destruct (dict_get d k).
Qed.

(** X10: the row written for a result has the same fields with the same
    values in the same order, except that the value of [properties] is what
    its text decodes to; a result without [properties] gets the field last,
    with the value the text [{}] decodes to. *)
Theorem staged_row_keeps_fields `{Runtime} (res r : row) :
  staged_row res = Ok r ->
  json_loads_value (default (JStr "{}") (dict_get res "properties"))
  = Ok (default JNull (dict_get r "properties"))
  /\ is_Some (dict_get r "properties")
  /\ (forall k, k <> "properties" -> dict_get r k = dict_get res k)
  /\ map fst r
     = match dict_get res "properties" with
       | Some _ => map fst res
       | None => map fst res ++ ["properties"]
       end.
Proof.
  unfold staged_row.
  destruct (json_loads_value _) as [v|e]; [|done].
  simpl. intros [= <-].
  rewrite dict_get_set. simpl.
  split; [done|]. split; [by eexists|].
  split; [intros k Hk; by apply dict_get_set_other|apply dict_set_keys].
Qed.

(** ** More on the data interval *)

Section MoreInterval.
Context `{Runtime}.

(** X11: a non-empty explicit end decides the interval alone: the
    schedule signal is not read, and an explicit end that is not ISO-8601
    text raises [ValueError] even when the schedule signal is usable. *)
Theorem explicit_end_wins (inputs : SnowflakeBatchExportInputs)
    (attrs attrs' : search_attributes) (s : string) :
  export_data_interval_end inputs = Some s ->
  s <> "" ->
  get_data_interval_from_workflow_inputs inputs attrs
  = get_data_interval_from_workflow_inputs inputs attrs'
  /\ (fromisoformat s = None ->
      get_data_interval_from_workflow_inputs inputs attrs
      = Raise (ValueError "Invalid isoformat string")).
Proof.
  intros Hend Hne.
  unfold get_data_interval_from_workflow_inputs, resolve_data_interval_end.
  rewrite Hend. destruct s as [|c s]; [done|].
  split; [done|].
  intros Hbad. unfold datetime_fromisoformat. by rewrite Hbad.
Qed.

(** Decides what an exception type says about the inputs, in the cases of
    [resolve_data_interval_end]. *)
Ltac error_kind :=
  split;
  [ first [ done | intros _; split; [auto|done] ]
  | first
      [ done
      | let Hx := fresh "Hx" in
        let Hy := fresh "Hy" in
        intros [[Hx|Hx] Hy]; first [discriminate Hx | discriminate Hy]
      | let He := fresh "He" in
        intros (? & He & _); discriminate He ] ].

(** X12: every interval the resolver returns is exactly one hour long,
    ends at the resolved end, keeps its UTC offset and does not start before
    [datetime.min]; every failure is a [TypeError], a [ValueError], an
    [IndexError] (a schedule signal that is an empty list) or an
    [OverflowError] (an end in the first hour of [datetime.min]). *)
Theorem interval_outcomes (inputs : SnowflakeBatchExportInputs)
    (attrs : search_attributes) :
  match get_data_interval_from_workflow_inputs inputs attrs with
  | Ok (s, e) =>
      resolve_data_interval_end inputs attrs = Ok e
      /\ dt_us e - dt_us s = 3600 * us_per_second
      /\ dt_tz s = dt_tz e
      /\ 0 <= dt_us s
  | Raise x =>
      exn_type x ∈ ["TypeError"; "ValueError"; "IndexError"; "OverflowError"]
      /\ (exn_type x = "IndexError" <->
          (export_data_interval_end inputs = None
           \/ export_data_interval_end inputs = Some "")
          /\ attrs !! "TemporalScheduledStartTime" = Some [])
      /\ (exn_type x = "OverflowError" <->
          exists e, resolve_data_interval_end inputs attrs = Ok e
                    /\ dt_us e < 3600 * us_per_second)
  end.
Proof.
  unfold get_data_interval_from_workflow_inputs.
  destruct (resolve_data_interval_end inputs attrs) as [e|x] eqn:Hend; simpl.
  - unfold sub_seconds.
    destruct (Z.ltb_spec (dt_us e - 3600 * us_per_second) 0) as [Hlt|Hge]; simpl.
    + split; [set_solver|]. split.
      * split; [done|]. intros [Hnone Hattr].
        unfold resolve_data_interval_end in Hend. rewrite Hattr in Hend.
        by destruct Hnone as [Hnone|Hnone]; rewrite Hnone in Hend.
      * split; [|done]. intros _. exists e. split; [done|lia].
    + repeat split; [lia|done].
  - unfold resolve_data_interval_end, datetime_fromisoformat in Hend.
    destruct (export_data_interval_end inputs) as [[|c s]|] eqn:Hexp.
    2:{ destruct (fromisoformat (String c s)); [done|]. injection Hend as <-.
        simpl. split; [set_solver|]. split; error_kind. }
    all: destruct (attrs !! "TemporalScheduledStartTime")
           as [[|[s|d|n|b] vs]|] eqn:Hattr;
      try destruct (fromisoformat s);
      try done; injection Hend as <-; simpl;
      (split; [set_solver|]); split; error_kind.
Qed.

End MoreInterval.

(** ** Adjacent intervals *)

Section Adjacent.
Context `{Runtime}.

Lemma selected_split (team : Z) (s m e : datetime) (r : row) :
  dt_us s <= dt_us m -> dt_us m <= dt_us e ->
  selected team s e r = selected team s m r || selected team m e r
  /\ selected team s m r && selected team m e r = false.
Proof.
  intros Hsm Hme. unfold selected.
  destruct (dict_get r "timestamp") as [[| | |ts| |]|]; try done.
  destruct (dict_get r "team_id") as [[| |t| | |]|]; try done.
  destruct (fromisoformat ts) as [d|]; [|done].
  destruct (Z.leb_spec (dt_us s) (dt_us d)), (Z.ltb_spec (dt_us d) (dt_us m)),
    (Z.leb_spec (dt_us m) (dt_us d)), (Z.ltb_spec (dt_us d) (dt_us e)),
    (t =? team); simpl; try done; lia.
Qed.

Lemma filter_selected_split (store : list row) (team : Z) (s m e : datetime) :
  dt_us s <= dt_us m -> dt_us m <= dt_us e ->
  filter (fun r => selected team s e r = true) store
  ≡ₚ filter (fun r => selected team s m r = true) store
     ++ filter (fun r => selected team m e r = true) store.
Proof.
  intros Hsm Hme.
  induction store as [|r store IH]; [done|].
  destruct (selected_split team s m e r Hsm Hme) as [Hor Hand].
  rewrite !filter_cons.
  destruct (selected team s m r), (selected team m e r);
    simpl in Hor, Hand; try done; rewrite Hor; simpl.
  - by rewrite IH.
  - rewrite IH. apply Permutation_middle.
  - exact IH.
Qed.

(** X13: the condition of the query is half-open: for bounds
    [s <= m <= e], the rows selected for [s, e) are, up to their order,
    the rows selected for [s, m) together with the rows selected for
    [m, e), and no row is selected for both. *)
Theorem selection_splits_at (store : list row) (team : Z) (s m e : datetime) :
  dt_us s <= dt_us m -> dt_us m <= dt_us e ->
  filter (fun r => selected team s e r = true) store
  ≡ₚ filter (fun r => selected team s m r = true) store
     ++ filter (fun r => selected team m e r = true) store
  /\ forall r, ~ (selected team s m r = true /\ selected team m e r = true).
Proof.
  intros Hsm Hme. split.
  - by apply filter_selected_split.
  - intros r [Hsm' Hme'].
    destruct (selected_split team s m e r Hsm Hme) as [_ Hand].
    by rewrite Hsm', Hme' in Hand.
Qed.

(** X14: two runs whose resolved ends are one hour apart have adjacent
    intervals: the later one starts exactly where the earlier one ends, so
    that between them they select every row of the two hours once. *)
Theorem hourly_intervals_are_adjacent
    (inputs1 inputs2 : SnowflakeBatchExportInputs)
    (attrs1 attrs2 : search_attributes) (e1 e2 : datetime)
    (store : list row) (team : Z) :
  resolve_data_interval_end inputs1 attrs1 = Ok e1 ->
  resolve_data_interval_end inputs2 attrs2 = Ok e2 ->
  3600 * us_per_second <= dt_us e1 ->
  dt_us e2 = dt_us e1 + 3600 * us_per_second ->
  dt_tz e2 = dt_tz e1 ->
  exists s1,
    get_data_interval_from_workflow_inputs inputs1 attrs1 = Ok (s1, e1)
    /\ get_data_interval_from_workflow_inputs inputs2 attrs2 = Ok (e1, e2)
    /\ filter (fun r => selected team s1 e2 r = true) store
       ≡ₚ filter (fun r => selected team s1 e1 r = true) store
          ++ filter (fun r => selected team e1 e2 r = true) store.
Proof.
  intros Hend1 Hend2 Hrange Hhour Htz.
  exists (Datetime (dt_us e1 - 3600 * us_per_second) (dt_tz e1)).
  unfold get_data_interval_from_workflow_inputs.
  rewrite Hend1, Hend2. simpl.
  rewrite !sub_seconds_Ok by (unfold us_per_second in *; lia).
  split; [done|]. split.
  - rewrite Hhour, Htz. destruct e1 as [us tz]. simpl. do 3 f_equal. lia.
  - apply filter_selected_split; simpl; unfold us_per_second in *; lia.
Qed.

End Adjacent.

(** ** More on the workflow *)

Section MoreWorkflow.
Context `{Runtime}.
Variable inputs : SnowflakeBatchExportInputs.
Variable env : workflow_environment.

(** X15: when the data interval cannot be resolved the workflow raises
    the resolver's exception and schedules nothing: no run record is
    created, nothing is exported and no status is updated. *)
Theorem unresolved_interval_schedules_nothing (e : exn) :
  get_data_interval_from_workflow_inputs inputs (wf_search_attributes env)
  = Raise e ->
  run_workflow inputs env = (Raise e, initial_workflow_state).
Proof.
  intros Hinterval. unfold run_workflow, run.
  rewrite bind_eq. unfold lift at 1. by rewrite Hinterval.
Qed.

(** X16: when the run record cannot be created the workflow raises the
    exception of [create_export_run] after its attempts: the insert activity
    is never scheduled and no status is updated. *)
Theorem failed_creation_schedules_nothing_more
    (interval : datetime * datetime) (e : exn) :
  get_data_interval_from_workflow_inputs inputs (wf_search_attributes env)
  = Ok interval ->
  create_outcome env = Raise e ->
  exists tries,
    run_workflow inputs env
    = (Raise e,
       WorkflowState [CreateExportRun (create_inputs_of inputs interval) tries]
                     None)
    /\ (1 <= tries <= 3)%nat.
Proof.
  intros Hinterval Hcreate. unfold run_workflow, run.
  rewrite bind_eq. unfold lift at 1. rewrite Hinterval.
  rewrite bind_eq.
  unfold execute_create_export_run, create_outcome, execute_activity in *.
  simpl in *.
  destruct (wf_create_export_run env 0) as [a0|e0]; simpl in *; [done|].
  destruct (bool_decide _); simpl in *;
    [injection Hcreate as ->; exists 1%nat; split; [done|lia]|].
  destruct (wf_create_export_run env 1) as [a1|e1]; simpl in *; [done|].
  destruct (bool_decide _); simpl in *;
    [injection Hcreate as ->; exists 2%nat; split; [done|lia]|].
  destruct (wf_create_export_run env 2) as [a2|e2]; simpl in *; [done|].
  injection Hcreate as ->. exists 3%nat. split; [done|lia].
Qed.

(** X17: when the status update itself raises, the workflow raises the
    update's exception whatever the insert activity did: a failure of the
    insert activity is then replaced, and a run whose export succeeded
    fails. *)
Theorem failed_update_replaces_the_outcome (interval : datetime * datetime)
    (rid : string) (e : exn) :
  get_data_interval_from_workflow_inputs inputs (wf_search_attributes env)
  = Ok interval ->
  create_outcome env = Ok rid ->
  update_outcome env = Raise e ->
  (run_workflow inputs env).1 = Raise e
  /\ status_updates (run_workflow inputs env).2
     = [{| run_id := rid;
           status := if is_Ok (insert_outcome env (insert_inputs_of inputs interval))
                     then "Completed" else "Failed" |}].
Proof.
  intros Hinterval Hcreate Hupdate.
  rewrite (run_workflow_after_creation inputs env interval rid Hinterval Hcreate).
  cbv zeta. cbn [fst snd]. by rewrite Hupdate.
Qed.

End MoreWorkflow.

(** ** Retries *)



(** ** The further properties on the test scenario *)

(** The statements of a run pass the check for [USE] and [COPY] after a
    PUT was recorded between them. *)
Lemma contains_queries_in_order_more_queries_witness :
  contains_queries_in_order literal_match
    ["USE DATABASE"; "PUT file"; "COPY INTO events"] ["USE"; "COPY"] = true
  /\ contains_queries_in_order literal_match
       ["USE DATABASE"; "PUT file"; "COPY INTO events"] [] = true.
Proof.
  apply (contains_queries_in_order_more_queries literal_match
           ["USE DATABASE"; "COPY INTO events"]
           ["USE DATABASE"; "PUT file"; "COPY INTO events"] ["USE"; "COPY"]).
  - apply sublist_skip, sublist_cons, sublist_skip, sublist_nil.
  - reflexivity.
Defined.

(** The three files of the test's run, the last one empty, read back as
    the two rows. *)
Lemma staged_data_read_back_witness :
  staged_data_lines
    (map file_of_texts [[test_text test_first]; [test_text test_second]; []])
  = [test_text test_first; test_text test_second]
  /\ read_staged_data (H := test_runtime)
       (map file_of_texts [[test_text test_first]; [test_text test_second]; []])
     = Some [JDict (dict_set test_first "properties"
                      (JDict [("$browser", JStr "Chrome");
                              ("$os", JStr "Mac OS X")]));
             JDict (dict_set test_second "properties"
                      (JDict [("$browser", JStr "Chrome");
                              ("$os", JStr "Mac OS X")]))].
Proof.
  apply (@staged_data_read_back test_runtime
           [[test_text test_first]; [test_text test_second]; []]).
  - repeat constructor; vm_compute; repeat split; discriminate.
  - repeat constructor; vm_compute; reflexivity.
Defined.

(** The files of the test's run: each of the two sealed files passed the
    chunk size of one byte with its only line. *)
Lemma sealed_files_just_exceed_chunk_size_witness :
  exists sealed rest,
    run_activity (H := test_runtime) test_insert_inputs test_environment
    = (Ok tt, loaded_world test_insert_inputs (sealed ++ [rest]))
    /\ w_staged_files
         (run_activity (H := test_runtime) test_insert_inputs test_environment).2
       = map file_content sealed ++ [file_content rest]
    /\ concat sealed ++ rest = [test_line test_first; test_line test_second]
    /\ Forall (just_exceeds 1) sealed
    /\ (content_size rest = 0 \/ content_size rest <= 1).
Proof.
  apply (@sealed_files_just_exceed_chunk_size test_runtime test_insert_inputs
           test_environment 2 [test_line test_first; test_line test_second]
           eq_refl test_environment_count ltac:(discriminate)
           test_environment_succeeds eq_refl).
  rewrite test_environment_rows.
  constructor; [apply test_first_writes_line|].
  constructor; [apply test_second_writes_line|constructor].
Defined.

(** The test's run with a chunk size of one MiB: one file, one PUT. *)
Lemma small_export_is_one_file_witness :
  run_activity (H := roomy_runtime) test_insert_inputs test_environment
  = (Ok tt,
     loaded_world test_insert_inputs
       [[test_line test_first; test_line test_second]])
  /\ w_staged_files
       (run_activity (H := roomy_runtime) test_insert_inputs test_environment).2
     = [file_content [test_line test_first; test_line test_second]]
  /\ queries
       (run_activity (H := roomy_runtime) test_insert_inputs test_environment).2
     = prelude test_insert_inputs
       ++ [put_file test_insert_inputs 0; copy_into test_insert_inputs].
Proof.
  apply (@small_export_is_one_file roomy_runtime test_insert_inputs
           test_environment 2 [test_line test_first; test_line test_second]
           eq_refl test_environment_count ltac:(discriminate)
           test_environment_succeeds eq_refl).
  - rewrite test_environment_rows.
    constructor; [apply test_first_writes_line|].
    constructor; [apply test_second_writes_line|constructor].
  - by vm_compute.
Defined.

(** The run when Snowflake refuses the connection. *)
Lemma failure_before_connection_witness :
  run_activity (H := test_runtime) test_insert_inputs
    refused_connection_environment
  = (Raise (Exn "DatabaseError" "incorrect username or password"),
     World [ClientOpen; IsAlive; RowsCount; ClientClose] [] [] 0 NoConnection).
Proof.
  apply (@failure_before_connection test_runtime test_insert_inputs
           refused_connection_environment
           (Exn "DatabaseError" "incorrect username or password") eq_refl).
  right. split; [|reflexivity]. exists 2. split; [reflexivity|lia].
Defined.

(** The run over an event whose properties are not JSON: the first event
    is staged, being sealed in a file of its own, and the run raises. *)
Lemma undecodable_row_aborts_the_run_witness :
  exists sealed rest,
    chunk_lines 1 [] [test_line test_first] = (sealed, rest)
    /\ (run_activity (H := test_runtime) test_insert_inputs
          undecodable_environment).1
       = Raise (Exn "JSONDecodeError" "Expecting value")
    /\ queries (run_activity (H := test_runtime) test_insert_inputs
                  undecodable_environment).2
       = prelude test_insert_inputs
         ++ map (put_file test_insert_inputs) (seq 0 (length sealed))
    /\ w_staged_files (run_activity (H := test_runtime) test_insert_inputs
                         undecodable_environment).2
       = map file_content sealed
    /\ copy_into test_insert_inputs
       ∉ queries (run_activity (H := test_runtime) test_insert_inputs
                    undecodable_environment).2.
Proof.
  apply (@undecodable_row_aborts_the_run test_runtime test_insert_inputs
           undecodable_environment 3 [Some test_first] [Some test_second]
           (Some test_undecodable) test_undecodable [test_line test_first]
           (Exn "JSONDecodeError" "Expecting value")
           eq_refl eq_refl ltac:(discriminate) ltac:(by split) eq_refl).
  - constructor; [apply test_first_writes_line|constructor].
  - reflexivity.
  - vm_compute. reflexivity.
Defined.


(** The row written for the first event of the test. *)
Lemma staged_row_keeps_fields_witness :
  json_loads_value (H := test_runtime)
    (default (JStr "{}") (dict_get test_first "properties"))
  = Ok (default JNull
          (dict_get (dict_set test_first "properties"
                       (JDict [("$browser", JStr "Chrome");
                               ("$os", JStr "Mac OS X")])) "properties"))
  /\ is_Some (dict_get (dict_set test_first "properties"
                          (JDict [("$browser", JStr "Chrome");
                                  ("$os", JStr "Mac OS X")])) "properties")
  /\ (forall k, k <> "properties" ->
        dict_get (dict_set test_first "properties"
                    (JDict [("$browser", JStr "Chrome");
                            ("$os", JStr "Mac OS X")])) k
        = dict_get test_first k)
  /\ map fst (dict_set test_first "properties"
                (JDict [("$browser", JStr "Chrome"); ("$os", JStr "Mac OS X")]))
     = match dict_get test_first "properties" with
       | Some _ => map fst test_first
       | None => map fst test_first ++ ["properties"]
       end.
Proof.
  apply (@staged_row_keeps_fields test_runtime test_first).
  vm_compute. reflexivity.
Defined.

(** The test's explicit end with and without a schedule signal. *)
Lemma explicit_end_wins_witness :
  get_data_interval_from_workflow_inputs (H := test_runtime)
    (test_export_inputs (Some "2023-04-20 14:40:00.000000")) ∅
  = get_data_interval_from_workflow_inputs (H := test_runtime)
      (test_export_inputs (Some "2023-04-20 14:40:00.000000"))
      empty_schedule_signal
  /\ (fromisoformat (Runtime := test_runtime) "2023-04-20 14:40:00.000000" = None ->
      get_data_interval_from_workflow_inputs (H := test_runtime)
        (test_export_inputs (Some "2023-04-20 14:40:00.000000")) ∅
      = Raise (ValueError "Invalid isoformat string")).
Proof.
  apply (@explicit_end_wins test_runtime
           (test_export_inputs (Some "2023-04-20 14:40:00.000000"))
           ∅ empty_schedule_signal "2023-04-20 14:40:00.000000" eq_refl).
  discriminate.
Defined.

(** The hour of the test split at 14:30:00.000001, between its two
    events. *)
Lemma selection_splits_at_witness :
  filter (fun r => selected (H := test_runtime) 1
                     (Datetime 63817594800000000 None)
                     (Datetime 63817598400000000 None) r = true) test_store
  ≡ₚ filter (fun r => selected (H := test_runtime) 1
                        (Datetime 63817594800000000 None)
                        (Datetime 63817597800000001 None) r = true) test_store
     ++ filter (fun r => selected (H := test_runtime) 1
                           (Datetime 63817597800000001 None)
                           (Datetime 63817598400000000 None) r = true) test_store
  /\ forall r,
       ~ (selected (H := test_runtime) 1 (Datetime 63817594800000000 None)
            (Datetime 63817597800000001 None) r = true
          /\ selected (H := test_runtime) 1 (Datetime 63817597800000001 None)
               (Datetime 63817598400000000 None) r = true).
Proof.
  apply (@selection_splits_at test_runtime test_store 1
           (Datetime 63817594800000000 None) (Datetime 63817597800000001 None)
           (Datetime 63817598400000000 None)); simpl; lia.
Defined.

(** The runs that end at 14:40 and at 15:40. *)
Lemma hourly_intervals_are_adjacent_witness :
  exists s1,
    get_data_interval_from_workflow_inputs (H := test_runtime)
      (test_export_inputs (Some "2023-04-20 14:40:00.000000")) ∅
    = Ok (s1, Datetime 63817598400000000 None)
    /\ get_data_interval_from_workflow_inputs (H := test_runtime)
         (test_export_inputs (Some "2023-04-20 15:40:00.000000")) ∅
       = Ok (Datetime 63817598400000000 None, Datetime 63817602000000000 None)
    /\ filter (fun r => selected (H := test_runtime) 1 s1
                          (Datetime 63817602000000000 None) r = true) test_store
       ≡ₚ filter (fun r => selected (H := test_runtime) 1 s1
                             (Datetime 63817598400000000 None) r = true)
                 test_store
          ++ filter (fun r => selected (H := test_runtime) 1
                                (Datetime 63817598400000000 None)
                                (Datetime 63817602000000000 None) r = true)
                    test_store.
Proof.
  apply (@hourly_intervals_are_adjacent test_runtime
           (test_export_inputs (Some "2023-04-20 14:40:00.000000"))
           (test_export_inputs (Some "2023-04-20 15:40:00.000000")) ∅ ∅
           (Datetime 63817598400000000 None) (Datetime 63817602000000000 None)
           test_store 1).
  - vm_compute. reflexivity.
  - vm_compute. reflexivity.
  - by vm_compute.
  - vm_compute. reflexivity.
  - reflexivity.
Defined.

(** The workflow with neither an explicit end nor a schedule signal. *)
Lemma unresolved_interval_schedules_nothing_witness :
  run_workflow (H := test_runtime) (test_export_inputs None)
    (test_workflow_environment test_store)
  = (Raise (TypeError missing_search_attribute_message), initial_workflow_state).
Proof.
  apply (@unresolved_interval_schedules_nothing test_runtime
           (test_export_inputs None) (test_workflow_environment test_store)).
  vm_compute. reflexivity.
Defined.

(** The workflow when the run record violates a constraint. *)
Lemma failed_creation_schedules_nothing_more_witness :
  exists tries,
    run_workflow (H := test_runtime)
      (test_export_inputs (Some "2023-04-20 14:40:00.000000"))
      failing_creation_environment
    = (Raise (Exn "IntegrityError" "duplicate key"),
       WorkflowState
         [CreateExportRun
            (create_inputs_of (H := test_runtime)
               (test_export_inputs (Some "2023-04-20 14:40:00.000000"))
               (Datetime 63817594800000000 None,
                Datetime 63817598400000000 None)) tries]
         None)
    /\ (1 <= tries <= 3)%nat.
Proof.
  apply (@failed_creation_schedules_nothing_more test_runtime
           (test_export_inputs (Some "2023-04-20 14:40:00.000000"))
           failing_creation_environment
           (Datetime 63817594800000000 None, Datetime 63817598400000000 None)
           (Exn "IntegrityError" "duplicate key")).
  - vm_compute. reflexivity.
  - reflexivity.
Defined.

(** The workflow of the test when the status update raises: the export
    succeeded, the status sent is Completed, and the workflow fails. *)
Lemma failed_update_replaces_the_outcome_witness :
  (run_workflow (H := test_runtime)
     (test_export_inputs (Some "2023-04-20 14:40:00.000000"))
     failing_update_environment).1
  = Raise (Exn "DoesNotExist" "BatchExportRun matching query does not exist")
  /\ status_updates
       (run_workflow (H := test_runtime)
          (test_export_inputs (Some "2023-04-20 14:40:00.000000"))
          failing_update_environment).2
     = [{| run_id := "run-1";
           status :=
             if is_Ok (insert_outcome (H := test_runtime)
                         failing_update_environment
                         (insert_inputs_of (H := test_runtime)
                            (test_export_inputs
                               (Some "2023-04-20 14:40:00.000000"))
                            (Datetime 63817594800000000 None,
                             Datetime 63817598400000000 None)))
             then "Completed" else "Failed" |}].
Proof.
  apply (@failed_update_replaces_the_outcome test_runtime
           (test_export_inputs (Some "2023-04-20 14:40:00.000000"))
           failing_update_environment
           (Datetime 63817594800000000 None, Datetime 63817598400000000 None)
           "run-1" (Exn "DoesNotExist"
                        "BatchExportRun matching query does not exist")).
  - vm_compute. reflexivity.
  - reflexivity.
  - reflexivity.
Defined.
